(** * iQE050 BBQ controller web client: protocol layer

    A shallow embedding of [bluetooth.js] (class [BBQBluetooth]: telemetry
    decoder, command encoders, connection session) and of the fuel estimator
    of [app.js] ([BBQApp.updateFuelMonitor]), in their latest revision.

    Conventions.
    - A [DataView] is a list of bytes; reading past its end raises a
      [RangeError] in JavaScript and is [None] here.
    - Integer-valued JavaScript numbers (bytes, temperatures, millisecond
      clock readings, encoder arguments obtained with [parseInt]) are [Z];
      quantities that the code divides are IEEE binary64 [float]s, as in
      JavaScript.
    - Code that mutates [this] and may throw runs in the monad [M]: it threads
      the session, returns [Resolved] or [Rejected], and logs every call that
      leaves the object (console, callbacks, GATT operations, timers).
    - The outcome of every awaited promise of the Web Bluetooth API is read
      from a [World].  An [async] method is run from its call to its
      completion. *)

From Stdlib Require Import ZArith Bool String DecimalString Lia Floats Uint63
  FloatAxioms.
From Stdlib.Strings Require Import Byte.
From Stdlib Require Import List Sorted.
Import ListNotations.
Open Scope Z_scope.
Set Warnings "-inexact-float".

(* ------------------------------------------------------------------ *)
(** ** JavaScript values used by the code *)

Definition isSome {A : Type} (o : option A) : bool :=
  match o with Some _ => true | None => false end.

(** [String.prototype.includes]. *)
Definition includes (s sub : string) : bool :=
  isSome (String.index 0 sub s).

(** [Math.max] and [Math.min] on integers. *)
Definition Math_max (a b : Z) : Z := Z.max a b.
Definition Math_min (a b : Z) : Z := Z.min a b.

(** [new Uint8Array([...])]: every element is reduced modulo 256. *)
Definition Uint8Array (xs : list Z) : list Z := map (fun x => x mod 256) xs.

Definition DataView := list byte.

Definition byteLength (dv : DataView) : Z := Z.of_nat (length dv).

Definition getUint8 (dv : DataView) (i : nat) : option Z :=
  option_map (fun b => Z.of_N (Byte.to_N b)) (nth_error dv i).

Definition getUint16 (dv : DataView) (i : nat) (littleEndian : bool) : option Z :=
  match getUint8 dv i, getUint8 dv (S i) with
  | Some a, Some b => Some (if littleEndian then b * 256 + a else a * 256 + b)
  | _, _ => None
  end.

(** A buffer from integer literals, for the examples. *)
Definition bytes (xs : list Z) : DataView :=
  map (fun x => match Byte.of_N (Z.to_N (x mod 256)) with
                | Some b => b
                | None => x00
                end) xs.

(* ------------------------------------------------------------------ *)
(** ** Telemetry reading *)

Record Flags := mkFlags {
  unknown : bool;
  food1Enabled : bool;
  food2Enabled : bool;
  food1Done : bool;
  food2Done : bool;
  pitHot : bool;
  pitCold : bool;
  lidOpen : bool
}.

Record Telemetry := mkTelemetry {
  pitAlarm : Z;
  delayTime : Z;
  delayPitSet : Z;
  pitTemp : Z;
  food1Temp : Z;
  food2Temp : Z;
  byte9 : Z;
  pitSet : Z;
  food1Alarm : Z;
  food2Alarm : Z;
  fanDuty : Z;
  byte14 : Z;
  byte15 : Z;
  food1TempTrigger : Z;
  food1PitSet : Z;
  food2TempTrigger : Z;
  food2PitSet : Z;
  uptimeMin : Z;
  lidDetect : Z;
  fanSpeed : Z;
  heartbeat : Z;
  delayEnabled : Z;
  flags : Flags
}.

(** [(b & mask) !== 0] *)
Definition bitSet (b mask : Z) : bool := negb (Z.land b mask =? 0).

(** The body of [handleTelemetry] after the length check: the object
    literal [data] and the fields derived from bytes 9, 14 and 15. *)
Definition parseTelemetry (dataView : DataView) : option Telemetry :=
  match getUint8 dataView 0, getUint8 dataView 1, getUint8 dataView 2,
        getUint16 dataView 3 false, getUint16 dataView 5 false,
        getUint16 dataView 7 false,
        getUint8 dataView 9, getUint8 dataView 10, getUint8 dataView 11,
        getUint8 dataView 12, getUint8 dataView 13, getUint8 dataView 14,
        getUint8 dataView 15, getUint8 dataView 16, getUint8 dataView 17,
        getUint8 dataView 18, getUint8 dataView 19 with
  | Some b0, Some b1, Some b2, Some pit, Some f1, Some f2,
    Some b9, Some b10, Some b11, Some b12, Some b13, Some b14,
    Some b15, Some b16, Some b17, Some b18, Some b19 =>
      Some {| pitAlarm := b0;
              delayTime := b1;
              delayPitSet := b2;
              pitTemp := pit;
              food1Temp := f1;
              food2Temp := f2;
              byte9 := b9;
              pitSet := b10;
              food1Alarm := b11;
              food2Alarm := b12;
              fanDuty := b13;
              byte14 := b14;
              byte15 := b15;
              food1TempTrigger := b16;
              food1PitSet := b17;
              food2TempTrigger := b18;
              food2PitSet := b19;
              uptimeMin := Z.land (Z.shiftr b9 4) 15;
              lidDetect := Z.land (Z.shiftr b9 3) 1;
              fanSpeed := Z.land b9 7;
              heartbeat := Z.land (Z.shiftr b14 7) 1;
              delayEnabled := Z.land b14 1;
              flags := {| unknown := bitSet b15 1;
                          food1Enabled := bitSet b15 2;
                          food2Enabled := bitSet b15 4;
                          food1Done := bitSet b15 8;
                          food2Done := bitSet b15 16;
                          pitHot := bitSet b15 32;
                          pitCold := bitSet b15 64;
                          lidOpen := bitSet b15 128 |} |}
  | _, _, _, _, _, _, _, _, _, _, _, _, _, _, _, _, _ => None
  end.

(* ------------------------------------------------------------------ *)
(** ** The session object and what leaves it *)

Record Error := mkError { message : string }.

Inductive Result (A : Type) : Type :=
| Resolved (a : A)
| Rejected (e : Error).
Arguments Resolved {A} a.
Arguments Rejected {A} e.

(** Handles of the Web Bluetooth API. [gatt] tells whether the device
    exposes a GATT server object. *)
Record Device := mkDevice { name : string; gatt : bool }.
Inductive Server := GattServer.
Inductive Service := GattService (uuid : string).
Inductive Characteristic := GattCharacteristic (uuid : string).

Definition SERVICE_UUID : string := "5fb70000-9c92-4489-ab95-5bc20bb36eab".
Definition TELEMETRY_UUID : string := "5fb70001-9c92-4489-ab95-5bc20bb36eab".
Definition WRITE_AUTH_UUID : string := "5fb70004-9c92-4489-ab95-5bc20bb36eab".
Definition WRITE_NOAUTH_UUID : string := "5fb70007-9c92-4489-ab95-5bc20bb36eab".

(** Functions handed to [setTimeout]. *)
Inductive Task := ReconnectTask.

(** Every call that leaves the object. A console call keeps the text of its
    message; interpolated or extra arguments are listed beside it. *)
Inductive Effect :=
| ConsoleLog (msg : string) (args : list Z)
| ConsoleWarn (msg : string) (args : list Z)
| ConsoleError (msg : string) (detail : string)
| OnData (data : Telemetry)
| OnStatus (state msg : string)
| RequestDevice
| ListenDisconnected
| GattConnect
| GattDisconnect
| GetPrimaryService (uuid : string)
| GetCharacteristic (uuid : string)
| ReadValue
| StartNotifications
| ListenValueChanged
| WriteValueWithResponse (data : list Z)
| Sleep (ms : Z)
| SetTimeout (task : Task) (ms : Z).

Record Session := mkSession {
  device : option Device;
  server : option Server;
  service : option Service;
  telemetryChar : option Characteristic;
  writeChar : option Characteristic;
  connected : bool;
  onDataCallback : bool;
  onStatusCallback : bool;
  intentionalDisconnect : bool;
  paired : bool
}.

(** The object built by the constructor. *)
Definition newSession : Session :=
  {| device := None; server := None; service := None;
     telemetryChar := None; writeChar := None; connected := false;
     onDataCallback := false; onStatusCallback := false;
     intentionalDisconnect := false; paired := false |}.

Definition set_device (v : option Device) (s : Session) : Session :=
  {| device := v; server := server s; service := service s;
     telemetryChar := telemetryChar s; writeChar := writeChar s;
     connected := connected s; onDataCallback := onDataCallback s;
     onStatusCallback := onStatusCallback s;
     intentionalDisconnect := intentionalDisconnect s; paired := paired s |}.
Definition set_server (v : option Server) (s : Session) : Session :=
  {| device := device s; server := v; service := service s;
     telemetryChar := telemetryChar s; writeChar := writeChar s;
     connected := connected s; onDataCallback := onDataCallback s;
     onStatusCallback := onStatusCallback s;
     intentionalDisconnect := intentionalDisconnect s; paired := paired s |}.
Definition set_service (v : option Service) (s : Session) : Session :=
  {| device := device s; server := server s; service := v;
     telemetryChar := telemetryChar s; writeChar := writeChar s;
     connected := connected s; onDataCallback := onDataCallback s;
     onStatusCallback := onStatusCallback s;
     intentionalDisconnect := intentionalDisconnect s; paired := paired s |}.
Definition set_telemetryChar (v : option Characteristic) (s : Session) : Session :=
  {| device := device s; server := server s; service := service s;
     telemetryChar := v; writeChar := writeChar s;
     connected := connected s; onDataCallback := onDataCallback s;
     onStatusCallback := onStatusCallback s;
     intentionalDisconnect := intentionalDisconnect s; paired := paired s |}.
Definition set_writeChar (v : option Characteristic) (s : Session) : Session :=
  {| device := device s; server := server s; service := service s;
     telemetryChar := telemetryChar s; writeChar := v;
     connected := connected s; onDataCallback := onDataCallback s;
     onStatusCallback := onStatusCallback s;
     intentionalDisconnect := intentionalDisconnect s; paired := paired s |}.
Definition set_connected (v : bool) (s : Session) : Session :=
  {| device := device s; server := server s; service := service s;
     telemetryChar := telemetryChar s; writeChar := writeChar s;
     connected := v; onDataCallback := onDataCallback s;
     onStatusCallback := onStatusCallback s;
     intentionalDisconnect := intentionalDisconnect s; paired := paired s |}.
Definition set_intentionalDisconnect (v : bool) (s : Session) : Session :=
  {| device := device s; server := server s; service := service s;
     telemetryChar := telemetryChar s; writeChar := writeChar s;
     connected := connected s; onDataCallback := onDataCallback s;
     onStatusCallback := onStatusCallback s;
     intentionalDisconnect := v; paired := paired s |}.
Definition set_paired (v : bool) (s : Session) : Session :=
  {| device := device s; server := server s; service := service s;
     telemetryChar := telemetryChar s; writeChar := writeChar s;
     connected := connected s; onDataCallback := onDataCallback s;
     onStatusCallback := onStatusCallback s;
     intentionalDisconnect := intentionalDisconnect s; paired := v |}.

(** Outcomes of the promises of the Web Bluetooth API. [gattConnect n] is
    the outcome of the [n]-th call of [gatt.connect()] within one method
    call, counted from 0. *)
Record World := mkWorld {
  requestDevice : Result Device;
  gattConnect : nat -> Result Server;
  getPrimaryService : Result Service;
  getCharacteristic : string -> Result Characteristic;
  readValue : Result unit;
  startNotifications : Result unit;
  writeValueWithResponse : list Z -> Result unit
}.

Module SessionMonad.

Definition M (A : Type) : Type :=
  Session -> Result A * Session * list Effect.

Definition ret {A} (a : A) : M A := fun s => (Resolved a, s, []).

Definition bind {A B} (m : M A) (k : A -> M B) : M B :=
  fun s =>
    match m s with
    | (Resolved a, s1, l1) =>
        let '(r, s2, l2) := k a s1 in (r, s2, l1 ++ l2)
    | (Rejected e, s1, l1) => (Rejected e, s1, l1)
    end.

Definition throw {A} (e : Error) : M A := fun s => (Rejected e, s, []).

(** [try { m } catch (e) { h e }] *)
Definition try_catch {A} (m : M A) (h : Error -> M A) : M A :=
  fun s =>
    match m s with
    | (Resolved a, s1, l1) => (Resolved a, s1, l1)
    | (Rejected e, s1, l1) =>
        let '(r, s2, l2) := h e s1 in (r, s2, l1 ++ l2)
    end.

Definition get : M Session := fun s => (Resolved s, s, []).
Definition modify (f : Session -> Session) : M unit :=
  fun s => (Resolved tt, f s, []).
Definition emit (e : Effect) : M unit := fun s => (Resolved tt, s, [e]).

(** [await p] for a promise whose outcome the world decides. *)
Definition await {A} (p : Result A) : M A := fun s => (p, s, []).

Definition when (b : bool) (m : M unit) : M unit :=
  if b then m else ret tt.

End SessionMonad.
Import SessionMonad.

Notation "x <- c1 ;; c2" := (bind c1 (fun x => c2))
  (at level 61, c1 at next level, right associativity).
Notation "c1 ;; c2" := (bind c1 (fun _ => c2))
  (at level 61, right associativity).

Definition resultOf {A} (r : Result A * Session * list Effect) : Result A :=
  fst (fst r).
Definition sessionOf {A} (r : Result A * Session * list Effect) : Session :=
  snd (fst r).
Definition effectsOf {A} (r : Result A * Session * list Effect) : list Effect :=
  snd r.

(* ------------------------------------------------------------------ *)
(** ** [BBQBluetooth]: status, telemetry decoder *)

Definition updateStatus (state msg : string) : M unit :=
  s <- get ;;
  when (onStatusCallback s) (emit (OnStatus state msg)).

Definition handleTelemetry (dataView : DataView) : M unit :=
  if negb (byteLength dataView =? 20) then
    emit (ConsoleWarn "Invalid telemetry packet size:" [byteLength dataView])
  else
    match parseTelemetry dataView with
    | None => throw (mkError "RangeError: Offset is outside the bounds of the DataView")
    | Some data =>
        s <- get ;;
        when (onDataCallback s) (emit (OnData data))
    end.

(* ------------------------------------------------------------------ *)
(** ** [BBQBluetooth]: command encoder *)

Definition sendCommand (w : World) (command value : Z) : M bool :=
  s <- get ;;
  if negb (connected s) || negb (isSome (writeChar s)) then
    throw (mkError "Not connected to device")
  else
    let data := Uint8Array [command; value] in
    try_catch
      (emit (WriteValueWithResponse data) ;;
       await (writeValueWithResponse w data) ;;
       modify (set_paired true) ;;
       emit (ConsoleLog "Sent command:" [command; value]) ;;
       ret true)
      (fun error =>
         emit (ConsoleError "Write error" (message error)) ;;
         when (includes (message error) "GATT"
               || includes (message error) "auth"
               || includes (message error) "Security")
              (emit (ConsoleLog "Write failed - device may need pairing. If you see a Windows pairing dialog, accept it and try again." [])) ;;
         throw error).

Definition setPitTemp (w : World) (tempF : Z) : M bool :=
  let clamped := Math_max 150 (Math_min 400 tempF) in
  let value := clamped - 145 in
  sendCommand w 1 value.

Definition setFood1Alarm (w : World) (tempF : Z) : M bool :=
  let value := if tempF =? 0 then 0 else Math_max 50 (Math_min 250 tempF) in
  sendCommand w 2 value.

Definition setFood2Alarm (w : World) (tempF : Z) : M bool :=
  let value := if tempF =? 0 then 0 else Math_max 50 (Math_min 250 tempF) in
  sendCommand w 3 value.

Definition setPitAlarm (w : World) (tempF : Z) : M bool :=
  let value := if tempF =? 0 then 0 else Math_max 20 (Math_min 100 tempF) in
  sendCommand w 4 value.

Definition setLidDetect (w : World) (enabled : bool) : M bool :=
  sendCommand w 5 (if enabled then 1 else 0).

Definition setFanSpeed (w : World) (speed : Z) : M bool :=
  let value := Math_max 0 (Math_min 5 speed) in
  sendCommand w 6 value.

Definition setTempUnits (w : World) (fahrenheit : bool) : M bool :=
  sendCommand w 7 (if fahrenheit then 0 else 1).

Definition setSoundLevel (w : World) (level : Z) : M bool :=
  let value := Math_max 0 (Math_min 5 level) in
  sendCommand w 8 value.

Definition setDisplayBrightness (w : World) (level : Z) : M bool :=
  let value := Math_max 1 (Math_min 3 level) in
  when (level =? 0)
       (emit (ConsoleWarn "Display brightness: device may ignore 0 (off); sending 1 instead" [])) ;;
  sendCommand w 9 value.

Definition setDelayTime (w : World) (fifteenMinBlocks : Z) : M bool :=
  let value := Math_max 0 (Math_min 96 fifteenMinBlocks) in
  sendCommand w 10 value.

Definition setDelayPitSet (w : World) (tempF : Z) : M bool :=
  if tempF =? 0 then sendCommand w 11 0
  else
    let clamped := Math_max 150 (Math_min 400 tempF) in
    sendCommand w 11 (clamped - 145).

Definition setFood1TempTrigger (w : World) (tempF : Z) : M bool :=
  let value := if tempF =? 0 then 0 else Math_max 50 (Math_min 250 tempF) in
  sendCommand w 12 value.

Definition setFood1PitSet (w : World) (tempF : Z) : M bool :=
  if tempF =? 0 then sendCommand w 13 0
  else
    let clamped := Math_max 150 (Math_min 400 tempF) in
    sendCommand w 13 (clamped - 145).

Definition setFood2TempTrigger (w : World) (tempF : Z) : M bool :=
  let value := if tempF =? 0 then 0 else Math_max 50 (Math_min 250 tempF) in
  sendCommand w 14 value.

Definition setFood2PitSet (w : World) (tempF : Z) : M bool :=
  if tempF =? 0 then sendCommand w 15 0
  else
    let clamped := Math_max 150 (Math_min 400 tempF) in
    sendCommand w 15 (clamped - 145).

(** The numeric settings of the §6 table, to speak of all encoders at once
    ([setLidDetect] and [setTempUnits] take a boolean and have no range). *)
Inductive Setting :=
| PitTemp | Food1Alarm | Food2Alarm | PitAlarm | FanSpeed | SoundLevel
| DisplayBrightness | DelayTime | DelayPitSet | Food1TempTrigger
| Food1PitSet | Food2TempTrigger | Food2PitSet.

Definition allSettings : list Setting :=
  [PitTemp; Food1Alarm; Food2Alarm; PitAlarm; FanSpeed; SoundLevel;
   DisplayBrightness; DelayTime; DelayPitSet; Food1TempTrigger;
   Food1PitSet; Food2TempTrigger; Food2PitSet].

Definition encode (w : World) (f : Setting) (v : Z) : M bool :=
  match f with
  | PitTemp => setPitTemp w v
  | Food1Alarm => setFood1Alarm w v
  | Food2Alarm => setFood2Alarm w v
  | PitAlarm => setPitAlarm w v
  | FanSpeed => setFanSpeed w v
  | SoundLevel => setSoundLevel w v
  | DisplayBrightness => setDisplayBrightness w v
  | DelayTime => setDelayTime w v
  | DelayPitSet => setDelayPitSet w v
  | Food1TempTrigger => setFood1TempTrigger w v
  | Food1PitSet => setFood1PitSet w v
  | Food2TempTrigger => setFood2TempTrigger w v
  | Food2PitSet => setFood2PitSet w v
  end.

(** The command frames a run wrote to the write characteristic. *)
Fixpoint framesWritten (l : list Effect) : list (list Z) :=
  match l with
  | [] => []
  | WriteValueWithResponse data :: l' => data :: framesWritten l'
  | _ :: l' => framesWritten l'
  end.

(** The console warnings of a run. *)
Fixpoint warnings (l : list Effect) : list string :=
  match l with
  | [] => []
  | ConsoleWarn msg _ :: l' => msg :: warnings l'
  | _ :: l' => warnings l'
  end.

(** The readings a run handed to the data callback. *)
Fixpoint readings (l : list Effect) : list Telemetry :=
  match l with
  | [] => []
  | OnData data :: l' => data :: readings l'
  | _ :: l' => readings l'
  end.

(** How the application reads a pit-set byte back: [updateTemperature]
    ([target > 0 ? target + 145 : 0]) and the settings panel
    ([raw === 0 ? 0 : raw + 145]). *)
Definition pitSetTargetF (raw : Z) : Z :=
  if 0 <? raw then raw + 145 else 0.

(** The clamp ranges of the opcode table of §6, in the spec's words, for
    comparison with the encoders. [0 or lo–hi] keeps 0 and clamps every
    other value into [lo, hi]. *)
Definition clampRange (lo hi v : Z) : Z :=
  if v <? lo then lo else if hi <? v then hi else v.
Definition clampOff (lo hi v : Z) : Z :=
  if v =? 0 then 0 else clampRange lo hi v.
Definition specClamp (f : Setting) (v : Z) : Z :=
  match f with
  | PitTemp => clampRange 150 400 v
  | Food1Alarm | Food2Alarm | Food1TempTrigger | Food2TempTrigger =>
      clampOff 50 250 v
  | PitAlarm => clampOff 20 100 v
  | FanSpeed | SoundLevel => clampRange 0 5 v
  | DisplayBrightness => clampRange 1 3 v
  | DelayTime => clampRange 0 96 v
  | DelayPitSet | Food1PitSet | Food2PitSet => clampOff 150 400 v
  end.

(** The storage transform of the §6 table, in the spec's words. *)
Definition specTransform (f : Setting) (v : Z) : Z :=
  match f with
  | PitTemp => v - 145
  | DelayPitSet | Food1PitSet | Food2PitSet => if v =? 0 then 0 else v - 145
  | _ => v
  end.

Definition opcode (f : Setting) : Z :=
  match f with
  | PitTemp => 1 | Food1Alarm => 2 | Food2Alarm => 3 | PitAlarm => 4
  | FanSpeed => 6 | SoundLevel => 8 | DisplayBrightness => 9
  | DelayTime => 10 | DelayPitSet => 11 | Food1TempTrigger => 12
  | Food1PitSet => 13 | Food2TempTrigger => 14 | Food2PitSet => 15
  end.

(* ------------------------------------------------------------------ *)
(** ** [BBQBluetooth]: connection session *)

Definition newline : string := String (Ascii.ascii_of_nat 10) EmptyString.

Definition natToString (n : nat) : string :=
  DecimalString.NilEmpty.string_of_uint (Nat.to_uint n).

Definition TypeError : Error :=
  mkError "TypeError: Cannot read properties of undefined".

(** [this.device.gatt.connect()], the [attempt]-th of the running method. *)
Definition gattConnectCall (w : World) (attempt : nat) : M Server :=
  s <- get ;;
  match device s with
  | Some d =>
      if gatt d then emit GattConnect ;; await (gattConnect w attempt)
      else throw TypeError
  | None => throw TypeError
  end.

(** The retry loop of [connect]: [while (retries > 0) { try ... catch ... }].
    It returns [lastError]. *)
Fixpoint gattConnectLoop (w : World) (retries attempt : nat)
    (lastError : option Error) : M (option Error) :=
  match retries with
  | O => ret lastError
  | S retries' =>
      try_catch
        (srv <- gattConnectCall w attempt ;;
         modify (set_server (Some srv)) ;;
         ret lastError)
        (fun error =>
           when (0 <? retries')%nat
                (updateStatus "connecting"
                   ("Retrying... (" ++ natToString retries' ++ " left)") ;;
                 emit (Sleep 1000)) ;;
           gattConnectLoop w retries' (S attempt) (Some error))
  end.

Definition connectErrorMessage (error : Error) : string :=
  if includes (message error) "GATT Server"
     || includes (message error) "disconnected" then
    "GATT Server Disconnected. Try:" ++ newline ++
    "1. Disconnect device from phone Bluetooth" ++ newline ++
    "2. Remove device from Windows Bluetooth settings" ++ newline ++
    "3. Refresh page and try again"
  else if includes (message error) "User cancelled" then
    "Connection cancelled"
  else if includes (message error) "not found" then
    "Device not found. Make sure BBQ controller is on and in range."
  else message error.

Definition deviceName (s : Session) : string :=
  match device s with Some d => name d | None => "" end.

Definition connect (w : World) : M bool :=
  try_catch
    (updateStatus "connecting" "Scanning for devices..." ;;
     emit RequestDevice ;;
     d <- await (requestDevice w) ;;
     modify (set_device (Some d)) ;;
     emit ListenDisconnected ;;
     updateStatus "connecting" ("Connecting to " ++ name d ++ "...") ;;
     lastError <- gattConnectLoop w 3 0 None ;;
     s <- get ;;
     (if isSome (server s) then ret tt
      else throw (match lastError with
                  | Some e => e
                  | None => mkError "Failed to connect to GATT server"
                  end)) ;;
     emit (GetPrimaryService SERVICE_UUID) ;;
     svc <- await (getPrimaryService w) ;;
     modify (set_service (Some svc)) ;;
     emit (GetCharacteristic TELEMETRY_UUID) ;;
     tc <- await (getCharacteristic w TELEMETRY_UUID) ;;
     modify (set_telemetryChar (Some tc)) ;;
     try_catch
       (emit (GetCharacteristic WRITE_AUTH_UUID) ;;
        wc <- await (getCharacteristic w WRITE_AUTH_UUID) ;;
        modify (set_writeChar (Some wc)) ;;
        emit (ConsoleLog "Got write-with-auth characteristic (5fb70004)" []) ;;
        try_catch
          (emit ReadValue ;;
           await (readValue w) ;;
           modify (set_paired true) ;;
           emit (ConsoleLog "Device is paired - write commands ready" []))
          (fun pairErr =>
             emit (ConsoleWarn "Read from write char failed (may need pairing):" [])))
       (fun writeErr =>
          emit (ConsoleError "Write characteristic 5fb70004 not found:"
                  (message writeErr)) ;;
          modify (set_writeChar None)) ;;
     emit StartNotifications ;;
     await (startNotifications w) ;;
     emit ListenValueChanged ;;
     modify (set_connected true) ;;
     updateStatus "connected" ("Connected to " ++ name d) ;;
     ret true)
    (fun error =>
       emit (ConsoleError "Connection error:" (message error)) ;;
       updateStatus "disconnected" (connectErrorMessage error) ;;
       ret false).

(** [disconnect()]; [gattConnected] is the value of
    [this.device.gatt.connected] when the method reads it. *)
Definition disconnect (gattConnected : bool) : M unit :=
  modify (set_intentionalDisconnect true) ;;
  s <- get ;;
  match device s with
  | Some d =>
      if gatt d then when gattConnected (emit GattDisconnect)
      else throw TypeError
  | None => ret tt
  end ;;
  modify (set_connected false) ;;
  modify (set_device None) ;;
  modify (set_server None) ;;
  modify (set_service None) ;;
  modify (set_telemetryChar None) ;;
  modify (set_writeChar None) ;;
  updateStatus "disconnected" "Disconnected".

(** The handler of the device's [gattserverdisconnected] event. *)
Definition onDisconnected : M unit :=
  s0 <- get ;;
  let wasConnected := connected s0 in
  modify (set_connected false) ;;
  modify (set_server None) ;;
  modify (set_service None) ;;
  modify (set_telemetryChar None) ;;
  modify (set_writeChar None) ;;
  updateStatus "disconnected" "Disconnected" ;;
  s <- get ;;
  when (wasConnected && isSome (device s) && negb (intentionalDisconnect s))
       (emit (ConsoleLog "Unexpected disconnect - attempting auto-reconnect..." []) ;;
        updateStatus "connecting" "Reconnecting..." ;;
        emit (SetTimeout ReconnectTask 2000)) ;;
  modify (set_intentionalDisconnect false).

Definition reconnect (w : World) : M unit :=
  s <- get ;;
  if negb (isSome (device s))
     || negb (match device s with Some d => gatt d | None => false end) then
    updateStatus "disconnected" "Device lost - please reconnect manually"
  else
    try_catch
      (srv <- gattConnectCall w 0 ;;
       modify (set_server (Some srv)) ;;
       emit (GetPrimaryService SERVICE_UUID) ;;
       svc <- await (getPrimaryService w) ;;
       modify (set_service (Some svc)) ;;
       emit (GetCharacteristic TELEMETRY_UUID) ;;
       tc <- await (getCharacteristic w TELEMETRY_UUID) ;;
       modify (set_telemetryChar (Some tc)) ;;
       try_catch
         (emit (GetCharacteristic WRITE_AUTH_UUID) ;;
          wc <- await (getCharacteristic w WRITE_AUTH_UUID) ;;
          modify (set_writeChar (Some wc)))
         (fun e => modify (set_writeChar None)) ;;
       emit StartNotifications ;;
       await (startNotifications w) ;;
       emit ListenValueChanged ;;
       modify (set_connected true) ;;
       updateStatus "connected" ("Reconnected to " ++ deviceName s))
      (fun error =>
         emit (ConsoleError "Reconnect failed:" (message error)) ;;
         updateStatus "disconnected" "Reconnect failed - click Connect" ;;
         modify (set_device None)).

(** Running a timer task when its delay has elapsed. *)
Definition runTask (w : World) (t : Task) : M unit :=
  match t with ReconnectTask => reconnect w end.

(** Observations on the log of a run. *)
Fixpoint timers (l : list Effect) : list (Task * Z) :=
  match l with
  | [] => []
  | SetTimeout t ms :: l' => (t, ms) :: timers l'
  | _ :: l' => timers l'
  end.

Fixpoint gattConnects (l : list Effect) : nat :=
  match l with
  | [] => O
  | GattConnect :: l' => S (gattConnects l')
  | _ :: l' => gattConnects l'
  end.

(** The Web Bluetooth calls of a run, in order. *)
Definition gattOps (l : list Effect) : list Effect :=
  filter (fun e => match e with
                   | ConsoleLog _ _ | ConsoleWarn _ _ | ConsoleError _ _
                   | OnStatus _ _ | OnData _ => false
                   | _ => true
                   end) l.

Fixpoint statuses (l : list Effect) : list (string * string) :=
  match l with
  | [] => []
  | OnStatus st msg :: l' => (st, msg) :: statuses l'
  | _ :: l' => statuses l'
  end.

(* ------------------------------------------------------------------ *)
(** ** JavaScript numbers that are not integers *)

Definition Z2F (z : Z) : float :=
  if z <? 0 then PrimFloat.opp (PrimFloat.of_uint63 (Uint63.of_Z (- z)))
  else PrimFloat.of_uint63 (Uint63.of_Z z).

Definition isNegZero (x : float) : bool :=
  match PrimFloat.classify x with NZero => true | _ => false end.

(** [Math.min] and [Math.max] on numbers: [NaN] is contagious and
    [-0] is smaller than [+0]. *)
Definition Math_minF (a b : float) : float :=
  if PrimFloat.is_nan a || PrimFloat.is_nan b then PrimFloat.nan
  else if PrimFloat.ltb a b then a
  else if PrimFloat.ltb b a then b
  else if isNegZero a then a else b.

Definition Math_maxF (a b : float) : float :=
  if PrimFloat.is_nan a || PrimFloat.is_nan b then PrimFloat.nan
  else if PrimFloat.ltb a b then b
  else if PrimFloat.ltb b a then a
  else if isNegZero a then b else a.

(* ------------------------------------------------------------------ *)
(** ** [BBQApp]: fuel estimator *)

Module DutyEntry.
Record t := mk { time : Z; duty : float }.
End DutyEntry.

Module DropEntry.
Record t := mk { time : Z; rate : float }.
End DropEntry.

Record FuelMonitor := mkFuelMonitor {
  fanDutyHistory : list DutyEntry.t;
  tempDropHistory : list DropEntry.t;
  lastPitTemp : option Z;
  lastCheckTime : option Z;
  lowFuelAlerted : bool
}.

(** [this.fuelMonitor] as the constructor of [BBQApp] builds it. *)
Definition newFuelMonitor : FuelMonitor :=
  {| fanDutyHistory := []; tempDropHistory := [];
     lastPitTemp := None; lastCheckTime := None; lowFuelAlerted := false |}.

(** What one update shows: the two averages, the level (the width of the
    fuel bar), the status line and the notifications it raised. *)
Record FuelView := mkFuelView {
  avgFanDuty : float;
  avgTempDrop : float;
  fuelLevel : Z;
  fuelText : string;
  notifications : list (string * string)
}.

(** First block of [updateFuelMonitor]: [fanDutyPercent]. *)
Definition fanDutyPercent (data : Telemetry) : float :=
  if fanSpeed data =? 0 then
    if negb (pitTemp data =? 999) && (0 <? pitSet data) then
      let targetTemp := pitSet data - 145 in
      let diff := targetTemp - pitTemp data in
      Math_maxF 0 (Math_minF 100 (Z2F diff / 50 * 100 + 30))
    else 0%float
  else (Z2F (fanSpeed data) / 7 * 100)%float.

(** Second block: the temperature drop rate, pushed when there is a
    previous reading and the current one is not the sentinel. *)
Definition pushTempDrop (fm : FuelMonitor) (data : Telemetry) (now : Z)
  : list DropEntry.t :=
  match lastPitTemp fm, lastCheckTime fm with
  | Some lastPit, Some lastCheck =>
      if negb (pitTemp data =? 999) then
        let timeDiff := (Z2F (now - lastCheck) / 1000 / 60)%float in
        let tempDiff := pitTemp data - lastPit in
        let dropRate := (Z2F tempDiff / timeDiff)%float in
        tempDropHistory fm ++ [DropEntry.mk now dropRate]
      else tempDropHistory fm
  | _, _ => tempDropHistory fm
  end.

Definition lengthF {A : Type} (l : list A) : float :=
  Z2F (Z.of_nat (length l)).

(** [updateFuelMonitor(data)]; [now] is the value of [Date.now()]. *)
Definition updateFuelMonitor (fm : FuelMonitor) (data : Telemetry) (now : Z)
  : FuelMonitor * FuelView :=
  let duties := fanDutyHistory fm ++ [DutyEntry.mk now (fanDutyPercent data)] in
  let drops := pushTempDrop fm data now in
  let cutoff := now - 30 * 60 * 1000 in
  let duties := filter (fun d => cutoff <=? DutyEntry.time d) duties in
  let drops := filter (fun d => cutoff <=? DropEntry.time d) drops in
  let avgFanDuty :=
    if (0 <? length duties)%nat then
      (fold_left (fun sum d => sum + DutyEntry.duty d) duties 0 / lengthF duties)%float
    else 0%float in
  let avgTempDrop :=
    if (0 <? length drops)%nat then
      (fold_left (fun sum d => sum + DropEntry.rate d) drops 0 / lengthF drops)%float
    else 0%float in
  let fuelLevel :=
    if (10 <? length duties)%nat && (5 <? length drops)%nat then
      if PrimFloat.ltb 60 avgFanDuty && PrimFloat.ltb avgTempDrop (-0.5) then 20
      else if PrimFloat.ltb 50 avgFanDuty && PrimFloat.ltb avgTempDrop (-0.2) then 40
      else if PrimFloat.ltb 40 avgFanDuty then 70
      else 100
    else 100 in
  let '(alerted, text, raised) :=
    if fuelLevel <=? 20 then
      if negb (lowFuelAlerted fm) then
        (true, "Fuel Critical - Add more soon!"%string,
         [("Low Fuel Warning"%string,
           "BBQ fuel is running low. Consider adding more."%string)])
      else (lowFuelAlerted fm, "Fuel Critical - Add more soon!"%string, [])
    else if fuelLevel <=? 40 then
      (lowFuelAlerted fm, "Fuel Low - Monitor closely"%string, [])
    else (false, "Fuel OK"%string, []) in
  ({| fanDutyHistory := duties; tempDropHistory := drops;
      lastPitTemp := Some (pitTemp data); lastCheckTime := Some now;
      lowFuelAlerted := alerted |},
   mkFuelView avgFanDuty avgTempDrop fuelLevel text raised).

(** The notification of [updateFuelMonitor]. *)
Definition lowFuelNote : string * string :=
  ("Low Fuel Warning"%string,
   "BBQ fuel is running low. Consider adding more."%string).

(** The estimator fed with the readings of a session, each with the clock
    value at which [handleTelemetryData] passed it on. *)
Fixpoint runFuel (fm : FuelMonitor) (inputs : list (Telemetry * Z))
  : FuelMonitor * list FuelView :=
  match inputs with
  | [] => (fm, [])
  | (data, now) :: rest =>
      let '(fm1, v) := updateFuelMonitor fm data now in
      let '(fm2, vs) := runFuel fm1 rest in
      (fm2, v :: vs)
  end.

Definition alerts (vs : list FuelView) : nat :=
  length (concat (map notifications vs)).

(** The arithmetic mean of a history, 0 when it is empty (§4.4 step 6). *)
Definition mean (xs : list float) : float :=
  match xs with
  | [] => 0%float
  | _ => (fold_left PrimFloat.add xs 0 / lengthF xs)%float
  end.

(** The classification of §4.4 step 7, in the spec's words. *)
Definition specLevel (nDuty nDrop : nat) (meanDuty meanDrop : float) : Z :=
  if (nDuty <? 11)%nat || (nDrop <? 6)%nat then 100
  else if PrimFloat.ltb 60 meanDuty && PrimFloat.ltb meanDrop (-0.5) then 20
  else if PrimFloat.ltb 50 meanDuty && PrimFloat.ltb meanDrop (-0.2) then 40
  else if PrimFloat.ltb 40 meanDuty then 70
  else 100.

(** The fan duty of §4.4 step 1, in the spec's words, with the pit-set
    target decoded as [rawByte + 145] (§4.1). *)
Definition specFanDuty (data : Telemetry) : float :=
  if (1 <=? fanSpeed data) && (fanSpeed data <=? 7) then
    (Z2F (fanSpeed data) / 7 * 100)%float
  else if (fanSpeed data =? 0) && negb (pitTemp data =? 999)
          && (0 <? pitSet data) then
    let targetF := pitSet data + 145 in
    Math_maxF 0 (Math_minF 100 (Z2F (targetF - pitTemp data) / 50 * 100 + 30))
  else 0%float.

(** A reading with the given pit temperature, fan speed and pit-set byte,
    decoded from the frame that carries them. *)
Definition frame (pit fan pitSetRaw : Z) : DataView :=
  bytes [0; 0; 0; pit / 256; pit mod 256; 0; 201; 0; 202; fan; pitSetRaw;
         200; 210; 0; 0; 0; 0; 0; 0; 0].

Definition reading (pit fan pitSetRaw : Z) : Telemetry :=
  match parseTelemetry (frame pit fan pitSetRaw) with
  | Some data => data
  | None => mkTelemetry 0 0 0 0 0 0 0 0 0 0 0 0 0 0 0 0 0 0 0 0 0 0
              (mkFlags false false false false false false false false)
  end.

(* ------------------------------------------------------------------ *)
(** ** [BBQApp]: temperature history, alarms, command verification *)

(** [`${n}`] for an integer. *)
Definition numToString (z : Z) : string :=
  DecimalString.NilZero.string_of_int (Z.to_int z).

Module TempHistory.
Record t := mk {
  pit : list (option Z);
  food1 : list (option Z);
  food2 : list (option Z);
  timestamps : list Z
}.
End TempHistory.

(** [this.tempHistory] as the constructor builds it. *)
Definition newTempHistory : TempHistory.t :=
  TempHistory.mk [] [] [] [].

Definition maxDataPoints : nat := 720.

(** [t === 999 ? null : t] *)
Definition orNull (t : Z) : option Z := if t =? 999 then None else Some t.

(** [Array.prototype.shift], for its effect on the array. *)
Definition shift {A : Type} (l : list A) : list A := tl l.

(** [addToHistory(data)]; [now] is the value of [Date.now()]. *)
Definition addToHistory (h : TempHistory.t) (data : Telemetry) (now : Z)
  : TempHistory.t :=
  let timestamps := TempHistory.timestamps h ++ [now] in
  let pit := TempHistory.pit h ++ [orNull (pitTemp data)] in
  let food1 := TempHistory.food1 h ++ [orNull (food1Temp data)] in
  let food2 := TempHistory.food2 h ++ [orNull (food2Temp data)] in
  if (maxDataPoints <? length timestamps)%nat then
    TempHistory.mk (shift pit) (shift food1) (shift food2) (shift timestamps)
  else TempHistory.mk pit food1 food2 timestamps.

(** [checkAlarms(data)]: the calls of [showNotification], in order. *)
Definition checkAlarms (data : Telemetry) : list (string * string) :=
  (if (0 <? food1Alarm data) && negb (food1Temp data =? 999)
      && (food1Alarm data <=? food1Temp data)
   then [("Food 1 Ready!"%string,
          ("Temperature reached " ++ numToString (food1Temp data) ++ "°F")%string)]
   else [])
  ++ (if (0 <? food2Alarm data) && negb (food2Temp data =? 999)
         && (food2Alarm data <=? food2Temp data)
      then [("Food 2 Ready!"%string,
             ("Temperature reached " ++ numToString (food2Temp data) ++ "°F")%string)]
      else [])
  ++ (if (0 <? pitAlarm data) && negb (pitTemp data =? 999)
         && (0 <? pitSet data)
      then
        let targetTemp := pitSet data - 145 in
        if pitTemp data <? targetTemp - pitAlarm data then
          [("Pit Temperature Low"%string,
            (numToString (pitTemp data) ++ "°F is "
             ++ numToString (targetTemp - pitTemp data)
             ++ "°F below target")%string)]
        else []
      else []).

(** [verifyCommand(cmd, arg)]: [true], [false] or [null]. *)
Definition verifyCommand (currentData : option Telemetry) (cmd arg : Z)
  : option bool :=
  match currentData with
  | None => None
  | Some d =>
      if cmd =? 1 then Some (pitSet d =? arg)
      else if cmd =? 2 then Some (food1Alarm d =? arg)
      else if cmd =? 3 then Some (food2Alarm d =? arg)
      else if cmd =? 4 then Some (pitAlarm d =? arg)
      else if cmd =? 5 then Some (lidDetect d =? arg)
      else if cmd =? 6 then Some (fanSpeed d =? arg)
      else if (cmd =? 7) || (cmd =? 8) || (cmd =? 9) then None
      else if cmd =? 10 then Some (delayTime d =? arg)
      else if cmd =? 11 then Some (delayPitSet d =? arg)
      else if cmd =? 12 then Some (food1TempTrigger d =? arg)
      else if cmd =? 13 then Some (food1PitSet d =? arg)
      else if cmd =? 14 then Some (food2TempTrigger d =? arg)
      else if cmd =? 15 then Some (food2PitSet d =? arg)
      else None
  end.

(** A toast: text, type and duration in milliseconds. *)
Record Toast := mkToast {
  toastText : string;
  toastType : string;
  toastDuration : Z
}.

(** [handleWriteError(err, actionName)]: the toast it shows. [err] is
    [None] for [null] or [undefined]. *)
Definition handleWriteError (err : option Error) (actionName : string) : Toast :=
  let msg :=
    match err with
    | Some e =>
        if negb (String.eqb (message e) "") then
          if includes (message e) "GATT" || includes (message e) "disconnect"
          then (actionName ++ " failed - device disconnected. Will auto-reconnect...")%string
          else if includes (message e) "auth"
                  || includes (message e) "Security"
                  || includes (message e) "not paired"
          then (actionName ++ " failed - device needs pairing. Accept the Windows pairing dialog and try again.")%string
          else ("Failed to " ++ actionName)%string
        else ("Failed to " ++ actionName)%string
    | None => ("Failed to " ++ actionName)%string
    end in
  mkToast msg "error" 5000.

(** The state of the application object that telemetry changes. *)
Record App := mkApp {
  currentData : option Telemetry;
  tempHistory : TempHistory.t;
  fuelMonitor : FuelMonitor
}.

Definition newApp : App := mkApp None newTempHistory newFuelMonitor.

(** [handleTelemetryData(data)]: the new state of the object and the calls
    of [showNotification], in order.  [tHistory] and [tFuel] are the values
    of the two calls of [Date.now()], in [addToHistory] and in
    [updateFuelMonitor].  The writes to the page are left out. *)
Definition handleTelemetryData (app : App) (data : Telemetry)
    (tHistory tFuel : Z) : App * list (string * string) :=
  let h := addToHistory (tempHistory app) data tHistory in
  let r := updateFuelMonitor (fuelMonitor app) data tFuel in
  (mkApp (Some data) h (fst r), notifications (snd r) ++ checkAlarms data).

(** A frame arriving from the device: [handleTelemetry], whose data
    callback [init] has set to [handleTelemetryData]. *)
Definition receiveFrame (s : Session) (app : App) (dv : DataView)
    (tHistory tFuel : Z) : App * list (string * string) :=
  match readings (effectsOf (handleTelemetry dv s)) with
  | data :: _ => handleTelemetryData app data tHistory tFuel
  | [] => (app, [])
  end.

(** A session fed with frames, each with its two clock values. *)
Fixpoint receiveFrames (s : Session) (app : App)
    (frames : list (DataView * Z * Z)) : App * list (string * string) :=
  match frames with
  | [] => (app, [])
  | (dv, tHistory, tFuel) :: rest =>
      let r := receiveFrame s app dv tHistory tFuel in
      let r' := receiveFrames s (fst r) rest in
      (fst r', snd r ++ snd r')
  end.

(** Where the decoder reads back the byte a setting was written with; the
    fan speed is a bit field and sound and brightness are not reported. *)
Definition telemetryOffset (f : Setting) : option nat :=
  match f with
  | PitAlarm => Some 0%nat
  | DelayTime => Some 1%nat
  | DelayPitSet => Some 2%nat
  | PitTemp => Some 10%nat
  | Food1Alarm => Some 11%nat
  | Food2Alarm => Some 12%nat
  | Food1TempTrigger => Some 16%nat
  | Food1PitSet => Some 17%nat
  | Food2TempTrigger => Some 18%nat
  | Food2PitSet => Some 19%nat
  | FanSpeed | SoundLevel | DisplayBrightness => None
  end.

(** More observations on the log of a run. *)
Fixpoint sleeps (l : list Effect) : list Z :=
  match l with
  | [] => []
  | Sleep ms :: l' => ms :: sleeps l'
  | _ :: l' => sleeps l'
  end.

(** The session with every handle dropped, as [disconnect] and the
    disconnect event leave it. *)
Definition cleared (s : Session) : Session :=
  {| device := None; server := None; service := None;
     telemetryChar := None; writeChar := None; connected := false;
     onDataCallback := onDataCallback s;
     onStatusCallback := onStatusCallback s;
     intentionalDisconnect := false; paired := paired s |}.

(** The weight of a flag in its byte. *)
Definition bit (b : bool) (weight : Z) : Z := if b then weight else 0.

(** The integers [lo], [lo + 1], ..., [lo + n - 1]. *)
Fixpoint zrange (lo : Z) (n : nat) : list Z :=
  match n with
  | O => []
  | S n' => lo :: zrange (lo + 1) n'
  end.

(** The four series of the temperature history have one length. *)
Definition aligned (h : TempHistory.t) : Prop :=
  length (TempHistory.pit h) = length (TempHistory.timestamps h)
  /\ length (TempHistory.food1 h) = length (TempHistory.timestamps h)
  /\ length (TempHistory.food2 h) = length (TempHistory.timestamps h).

(** No series of the temperature history holds the sentinel. *)
Definition sentinelFree (h : TempHistory.t) : Prop :=
  ~ In (Some 999) (TempHistory.pit h)
  /\ ~ In (Some 999) (TempHistory.food1 h)
  /\ ~ In (Some 999) (TempHistory.food2 h).

(** The history fed with the readings of a session. *)
Fixpoint runHistory (h : TempHistory.t) (inputs : list (Telemetry * Z))
  : TempHistory.t :=
  match inputs with
  | [] => h
  | (data, now) :: rest => runHistory (addToHistory h data now) rest
  end.

(** The last [n] elements of a list. *)
Definition lastN {A : Type} (n : nat) (l : list A) : list A :=
  skipn (length l - n) l.

(** The duty sample [updateFuelMonitor] pushes for a reading and its clock
    value. *)
Definition dutySample (i : Telemetry * Z) : DutyEntry.t :=
  DutyEntry.mk (snd i) (fanDutyPercent (fst i)).

(** The titles of the notifications [checkAlarms] raises. *)
Definition alarmTitles (data : Telemetry) : list string :=
  map fst (checkAlarms data).

(** The clamp of the auto-mode estimate in [fanDutyPercent], from the
    difference between target and pit temperature. *)
Definition autoDuty (diff : Z) : float :=
  Math_maxF 0 (Math_minF 100 (Z2F diff / 50 * 100 + 30)).

(* ------------------------------------------------------------------ *)
(** ** Concrete sessions, worlds and reading sequences *)

(** The session once [BBQApp.init] has installed its two callbacks. *)
Definition initSession : Session :=
  {| device := None; server := None; service := None;
     telemetryChar := None; writeChar := None; connected := false;
     onDataCallback := true; onStatusCallback := true;
     intentionalDisconnect := false; paired := false |}.

Definition iQE050 : Device := mkDevice "iQE050" true.

(** A world in which every promise resolves. *)
Definition okWorld : World :=
  {| requestDevice := Resolved iQE050;
     gattConnect := fun _ => Resolved GattServer;
     getPrimaryService := Resolved (GattService SERVICE_UUID);
     getCharacteristic := fun u => Resolved (GattCharacteristic u);
     readValue := Resolved tt;
     startNotifications := Resolved tt;
     writeValueWithResponse := fun _ => Resolved tt |}.


(** A world in which the device is out of range. *)
Definition deadWorld : World :=
  {| requestDevice := Resolved iQE050;
     gattConnect := fun _ => Rejected (mkError "Connection attempt failed");
     getPrimaryService := Resolved (GattService SERVICE_UUID);
     getCharacteristic := fun u => Resolved (GattCharacteristic u);
     readValue := Resolved tt;
     startNotifications := Resolved tt;
     writeValueWithResponse := fun _ => Resolved tt |}.

(** The session after a successful [connect] of [initSession]. *)
Definition connectedSession : Session :=
  sessionOf (connect okWorld initSession).

(** [n] readings one minute apart from clock value [t0], the pit
    temperature falling by 1 °F per minute from [start], the fan at manual
    speed [fan], the pit-set byte at 80 (225 °F). *)
Definition steady (n : nat) (fan start t0 : Z) : list (Telemetry * Z) :=
  map (fun i => (reading (start - Z.of_nat i) fan 80, t0 + 60000 * Z.of_nat i))
      (seq 0 n).

Definition t0 : Z := 1700000000000.

(** What the promises awaited by [reconnect] must do for it to reach its
    last statement. *)
Definition reconnectResolves (w : World) : bool :=
  match gattConnect w 0, getPrimaryService w,
        getCharacteristic w TELEMETRY_UUID, startNotifications w with
  | Resolved _, Resolved _, Resolved _, Resolved _ => true
  | _, _, _, _ => false
  end.

(** Two runs agree on what the caller and the device see: the returned
    promise, the session and the frames written. *)
Definition sameSend {A} (r r' : Result A * Session * list Effect) : Prop :=
  resultOf r = resultOf r'
  /\ sessionOf r = sessionOf r'
  /\ framesWritten (effectsOf r) = framesWritten (effectsOf r').

(* ================================================================== *)
(** * Properties *)

(** ** Telemetry decoder *)

Lemma parseTelemetry_total (dv : DataView) :
  length dv = 20%nat -> exists data, parseTelemetry dv = Some data.
Proof.
  intros H.
  do 20 (destruct dv as [|? dv]; [discriminate H|]).
  destruct dv; [|discriminate H].
  eexists. reflexivity.
Qed.

(** C1. A buffer whose length is not 20 is dropped with a console warning:
    the session is unchanged and the data callback is not invoked.  A
    20-byte buffer always decodes: [handleTelemetry] returns normally, and
    the reading it hands to the callback is a function of the bytes alone,
    the same in every session. *)
Theorem handleTelemetry_frame_length (dv : DataView) :
  (byteLength dv <> 20 ->
     forall s,
       handleTelemetry dv s =
         (Resolved tt, s,
          [ConsoleWarn "Invalid telemetry packet size:" [byteLength dv]])
       /\ readings (effectsOf (handleTelemetry dv s)) = [])
  /\ (byteLength dv = 20 ->
        exists data,
          parseTelemetry dv = Some data
          /\ forall s,
               handleTelemetry dv s =
                 (Resolved tt, s,
                  if onDataCallback s then [OnData data] else [])).
Proof.
  unfold handleTelemetry. split; intros H.
  - intros s. apply Z.eqb_neq in H. rewrite H. cbn. split; reflexivity.
  - assert (Hl : length dv = 20%nat) by (unfold byteLength in H; lia).
    destruct (parseTelemetry_total dv Hl) as [data Hd].
    exists data. split; [exact Hd|]. intros s.
    rewrite H, Hd. cbn. unfold bind, get, when. cbn.
    destruct (onDataCallback s); reflexivity.
Qed.

Lemma handleTelemetry_frame_length_witness :
  readings (effectsOf (handleTelemetry (bytes [1; 2; 3]) initSession)) = []
  /\ exists data,
       parseTelemetry (frame 200 2 80) = Some data
       /\ handleTelemetry (frame 200 2 80) initSession =
            (Resolved tt, initSession, [OnData data]).
Proof.
  split.
  - apply (proj1 (handleTelemetry_frame_length (bytes [1; 2; 3]))).
    vm_compute. discriminate.
  - destruct (proj2 (handleTelemetry_frame_length (frame 200 2 80)))
      as [data [Hd Hs]].
    + vm_compute. reflexivity.
    + exists data. split; [exact Hd|]. exact (Hs initSession).
Defined.

(** The frame of the end-to-end scenario of the spec (§8). *)
Example handleTelemetry_scenario :
  option_map (fun d => (pitTemp d, food1Temp d, food2Temp d, fanSpeed d,
                        lidDetect d, uptimeMin d, pitSet d,
                        pitSetTargetF (pitSet d), food1Alarm d, food2Alarm d))
    (parseTelemetry (bytes [0; 0; 0; 0; 200; 0; 201; 0; 202; 50; 80; 200; 210;
                            0; 0; 0; 0; 0; 0; 0]))
  = Some (200, 201, 202, 2, 0, 3, 80, 225, 200, 210).
Proof. vm_compute. reflexivity. Qed.

(** ** Command encoder *)

Lemma sameSend_refl {A} (r : Result A * Session * list Effect) : sameSend r r.
Proof. repeat split. Qed.

Lemma sameSend_trans {A} (r1 r2 r3 : Result A * Session * list Effect) :
  sameSend r1 r2 -> sameSend r2 r3 -> sameSend r1 r3.
Proof.
  intros (H1 & H2 & H3) (K1 & K2 & K3).
  repeat split; congruence.
Qed.

Lemma sameSend_sym {A} (r1 r2 : Result A * Session * list Effect) :
  sameSend r1 r2 -> sameSend r2 r1.
Proof. intros (H1 & H2 & H3). repeat split; congruence. Qed.

(** Case analysis on the integer tests of the goal, innermost first. *)
Ltac plain_test a :=
  lazymatch a with
  | context [Z.eqb] => fail
  | context [Z.ltb] => fail
  | _ => idtac
  end.

Ltac zbool :=
  repeat match goal with
         | |- context [?a <? ?b] =>
             plain_test a; plain_test b; destruct (Z.ltb_spec a b)
         | |- context [?a =? ?b] =>
             plain_test a; plain_test b; destruct (Z.eqb_spec a b)
         end;
  try lia.

Ltac unfold_clamps :=
  unfold specTransform, specClamp, clampOff, clampRange, opcode,
    Math_max, Math_min.

Lemma sendCommand_frames (w : World) (command value : Z) (s : Session) :
  connected s = true -> writeChar s <> None ->
  framesWritten (effectsOf (sendCommand w command value s))
  = [Uint8Array [command; value]].
Proof.
  intros Hc Hw. unfold sendCommand, bind, get, try_catch, emit, await,
    modify, throw, ret, when.
  rewrite Hc. destruct (writeChar s); [|congruence]. cbn.
  destruct (writeValueWithResponse w _); cbn; [reflexivity|].
  destruct (includes _ _ || includes _ _ || includes _ _); reflexivity.
Qed.

Lemma sendCommand_warnings (w : World) (command value : Z) (s : Session) :
  warnings (effectsOf (sendCommand w command value s)) = [].
Proof.
  unfold sendCommand, bind, get, try_catch, emit, await, modify, throw,
    ret, when.
  destruct (negb (connected s) || negb (isSome (writeChar s))); cbn;
    [reflexivity|].
  destruct (writeValueWithResponse w _); cbn; [reflexivity|].
  destruct (includes _ _ || includes _ _ || includes _ _); reflexivity.
Qed.

Lemma sendCommand_resolves (w : World) (command value : Z) (s : Session) :
  connected s = true -> writeChar s <> None ->
  writeValueWithResponse w (Uint8Array [command; value]) = Resolved tt ->
  resultOf (sendCommand w command value s) = Resolved true.
Proof.
  intros Hc Hw Hr. unfold sendCommand, bind, get, try_catch, emit, await,
    modify, throw, ret, when.
  rewrite Hc. destruct (writeChar s); [|congruence]. cbn in Hr |- *.
  rewrite Hr. reflexivity.
Qed.

Lemma bind_when_emit {A} (b : bool) (e : Effect) (m : M A) (s : Session) :
  (when b (emit e) ;; m) s
  = let '(r, s', l) := m s in (r, s', (if b then [e] else []) ++ l).
Proof.
  unfold bind, when, emit, ret.
  destruct b; cbn; destruct (m s) as [[r s'] l]; reflexivity.
Qed.

(** The brightness encoder is a send preceded by an optional warning. *)
Lemma setDisplayBrightness_send (w : World) (level : Z) (s : Session) :
  sameSend (setDisplayBrightness w level s)
           (sendCommand w 9 (Math_max 1 (Math_min 3 level)) s).
Proof.
  unfold setDisplayBrightness, sameSend, resultOf, sessionOf, effectsOf.
  cbv zeta. rewrite bind_when_emit.
  destruct (sendCommand w 9 (Math_max 1 (Math_min 3 level)) s) as [[r s'] l].
  destruct (level =? 0); cbn; repeat split.
Qed.

Lemma encode_value (f : Setting) (v : Z) :
  0 <= specTransform f (specClamp f v) <= 255.
Proof. destruct f; unfold_clamps; zbool. Qed.

(** Every numeric encoder sends the §6 clamp of its input, transformed. *)
Lemma encode_as_send (w : World) (f : Setting) (v : Z) (s : Session) :
  sameSend (encode w f v s)
           (sendCommand w (opcode f) (specTransform f (specClamp f v)) s).
Proof.
  destruct f; cbn [encode];
    try (match goal with
         | |- sameSend (setDisplayBrightness _ _ _) _ =>
             eapply sameSend_trans; [apply setDisplayBrightness_send|]
         end);
    unfold setPitTemp, setFood1Alarm, setFood2Alarm, setPitAlarm,
      setFanSpeed, setSoundLevel, setDelayTime, setDelayPitSet,
      setFood1TempTrigger, setFood1PitSet, setFood2TempTrigger,
      setFood2PitSet;
    cbv zeta;
    match goal with
    | |- sameSend ?l ?r =>
        replace l with r; [apply sameSend_refl|]
    end;
    unfold_clamps; zbool; f_equal; lia.
Qed.

Lemma specClamp_idempotent (f : Setting) (v : Z) :
  specClamp f (specClamp f v) = specClamp f v.
Proof. destruct f; unfold_clamps; zbool. Qed.

(** C2. For each of the four pit-set encoders and every temperature in
    150..400, the argument byte written is [x - 145], and reading that byte
    back as the application does ([raw + 145]) gives [x] again; this also
    holds when the byte comes back as byte 10 of a telemetry frame.
    [setPitTemp(225)] writes argument 80, and byte 80 reads as 225. *)
Theorem pitSet_roundtrip (w : World) (s : Session) (f : Setting) (x : Z) :
  In f [PitTemp; DelayPitSet; Food1PitSet; Food2PitSet] ->
  150 <= x <= 400 ->
  connected s = true -> writeChar s <> None ->
  framesWritten (effectsOf (encode w f x s)) = [[opcode f; x - 145]]
  /\ pitSetTargetF (x - 145) = x
  /\ (forall dv data,
        parseTelemetry dv = Some data ->
        getUint8 dv 10 = Some (x - 145) ->
        pitSetTargetF (pitSet data) = x)
  /\ framesWritten (effectsOf (setPitTemp w 225 s)) = [[1; 80]]
  /\ pitSetTargetF 80 = 225.
Proof.
  intros Hf Hx Hc Hw.
  assert (Hdec : pitSetTargetF (x - 145) = x).
  { unfold pitSetTargetF. zbool. }
  assert (Hframe : forall g v,
             framesWritten (effectsOf (encode w g v s))
             = [Uint8Array [opcode g; specTransform g (specClamp g v)]]).
  { intros g v. destruct (encode_as_send w g v s) as (_ & _ & ->).
    apply sendCommand_frames; assumption. }
  split; [|split; [exact Hdec|split; [|split; [|reflexivity]]]].
  - rewrite Hframe. cbn [Uint8Array map].
    assert (Harg : specTransform f (specClamp f x) = x - 145).
    { cbn in Hf. destruct Hf as [<-|[<-|[<-|[<-|[]]]]];
        unfold_clamps; zbool. }
    rewrite Harg.
    rewrite (Z.mod_small (x - 145)) by lia.
    destruct Hf as [<-|[<-|[<-|[<-|[]]]]]; reflexivity.
  - intros dv data Hp H10. unfold parseTelemetry in Hp. rewrite H10 in Hp.
    repeat match type of Hp with
           | match ?o with _ => _ end = Some _ =>
               destruct o; try discriminate Hp
           end.
    injection Hp as <-. exact Hdec.
  - exact (Hframe PitTemp 225).
Qed.

Lemma pitSet_roundtrip_witness :
  framesWritten (effectsOf (encode okWorld Food1PitSet 275 connectedSession))
  = [[13; 130]]
  /\ pitSetTargetF 130 = 275.
Proof.
  destruct (pitSet_roundtrip okWorld connectedSession Food1PitSet 275)
    as (H1 & H2 & _).
  - cbn. tauto.
  - lia.
  - vm_compute. reflexivity.
  - vm_compute. discriminate.
  - split; [exact H1 | exact H2].
Defined.

(** C3. Every numeric encoder behaves, for the caller and for the device,
    as a send of the §6 transform of the §6 clamp of its input: no input is
    refused for being out of range.  Clamping first changes nothing, the
    argument always fits a byte, and on a session with a write endpoint the
    frame written is [[opcode, argument]].  The two boolean encoders send 0
    or 1.  [setPitTemp(500)] and
    [setPitTemp(400)] both write [[0x01, 255]]. *)
Theorem encode_clamp_absorbed (w : World) (f : Setting) (v : Z) (s : Session) :
  let arg := specTransform f (specClamp f v) in
  sameSend (encode w f v s) (sendCommand w (opcode f) arg s)
  /\ sameSend (encode w f (specClamp f v) s) (encode w f v s)
  /\ 0 <= arg <= 255
  /\ (connected s = true -> writeChar s <> None ->
      framesWritten (effectsOf (encode w f v s)) = [[opcode f; arg]])
  /\ (forall b : bool,
        setLidDetect w b s = sendCommand w 5 (if b then 1 else 0) s
        /\ setTempUnits w b s = sendCommand w 7 (if b then 0 else 1) s)
  /\ framesWritten (effectsOf (setPitTemp w 500 connectedSession)) = [[1; 255]]
  /\ framesWritten (effectsOf (setPitTemp w 400 connectedSession)) = [[1; 255]].
Proof.
  intros arg. pose proof (encode_value f v) as Harg. fold arg in Harg.
  assert (Hconn : connected connectedSession = true) by (vm_compute; reflexivity).
  assert (Hwc : writeChar connectedSession <> None) by (vm_compute; discriminate).
  split; [apply encode_as_send|].
  split.
  { eapply sameSend_trans; [apply encode_as_send|].
    rewrite specClamp_idempotent. apply sameSend_sym, encode_as_send. }
  split; [exact Harg|].
  split.
  { intros Hc Hw. destruct (encode_as_send w f v s) as (_ & _ & ->).
    rewrite sendCommand_frames by assumption. fold arg.
    cbn [Uint8Array map]. rewrite (Z.mod_small arg) by lia.
    destruct f; reflexivity. }
  split; [intros b; split; reflexivity|].
  split.
  - destruct (encode_as_send w PitTemp 500 connectedSession) as (_ & _ & H).
    cbn [encode] in H. rewrite H. apply sendCommand_frames; assumption.
  - destruct (encode_as_send w PitTemp 400 connectedSession) as (_ & _ & H).
    cbn [encode] in H. rewrite H. apply sendCommand_frames; assumption.
Qed.

Lemma encode_clamp_absorbed_witness :
  framesWritten (effectsOf (encode okWorld Food1Alarm 300 connectedSession))
  = [[2; 250]].
Proof.
  apply (proj1 (proj2 (proj2 (proj2
           (encode_clamp_absorbed okWorld Food1Alarm 300 connectedSession))))).
  - vm_compute. reflexivity.
  - vm_compute. discriminate.
Defined.

(** C8, as the code has it. [setDisplayBrightness] sends opcode 9 with its
    input clamped to 1..3, whatever the input; level 0 is sent as 1.  The
    substitution is reported on the console only: a request for level 0
    logs one warning and otherwise runs exactly as a request for level 1,
    with the same returned promise, the same session and the same frame, so
    nothing about it reaches the caller.  No other level logs a warning. *)
Theorem setDisplayBrightness_substitutes_zero (w : World) (level : Z)
    (s : Session) :
  let value := clampRange 1 3 level in
  sameSend (setDisplayBrightness w level s) (sendCommand w 9 value s)
  /\ 1 <= value <= 3
  /\ clampRange 1 3 0 = 1
  /\ warnings (effectsOf (setDisplayBrightness w level s))
     = (if level =? 0
        then ["Display brightness: device may ignore 0 (off); sending 1 instead"%string]
        else [])
  /\ framesWritten (effectsOf (setDisplayBrightness w 0 connectedSession))
     = [[9; 1]]
  /\ resultOf (setDisplayBrightness w 0 s)
     = resultOf (setDisplayBrightness w 1 s)
  /\ sessionOf (setDisplayBrightness w 0 s)
     = sessionOf (setDisplayBrightness w 1 s)
  /\ effectsOf (setDisplayBrightness w 0 s)
     = ConsoleWarn
         "Display brightness: device may ignore 0 (off); sending 1 instead" []
       :: effectsOf (setDisplayBrightness w 1 s).
Proof.
  intros value.
  assert (Hv : Math_max 1 (Math_min 3 level) = value).
  { unfold value. unfold_clamps. zbool. }
  split; [rewrite <- Hv; apply setDisplayBrightness_send|].
  split; [unfold value; unfold_clamps; zbool|].
  split; [reflexivity|].
  split.
  { unfold setDisplayBrightness. cbv zeta. rewrite bind_when_emit.
    pose proof (sendCommand_warnings w 9 (Math_max 1 (Math_min 3 level)) s) as Hw.
    destruct (sendCommand w 9 (Math_max 1 (Math_min 3 level)) s) as [[r s'] l].
    unfold effectsOf in *. cbn [snd] in *.
    destruct (level =? 0); cbn; rewrite Hw; reflexivity. }
  split.
  { destruct (setDisplayBrightness_send w 0 connectedSession) as (_ & _ & ->).
    apply sendCommand_frames; [vm_compute; reflexivity | vm_compute; discriminate]. }
  unfold setDisplayBrightness. cbv zeta. rewrite !bind_when_emit.
  change (Math_max 1 (Math_min 3 0)) with 1.
  change (Math_max 1 (Math_min 3 1)) with 1.
  change (0 =? 0) with true. change (1 =? 0) with false.
  destruct (sendCommand w 9 1 s) as [[r s'] l].
  repeat split.
Qed.

(** C8 as stated fails: on a connected session a request for level 0
    returns to its caller what a request for level 1 returns, the value
    [true], and leaves the same session; the warning is an entry of the
    console log and nothing else. *)
Lemma display_brightness_warning_console_only :
  resultOf (setDisplayBrightness okWorld 0 connectedSession) = Resolved true
  /\ resultOf (setDisplayBrightness okWorld 1 connectedSession) = Resolved true
  /\ sessionOf (setDisplayBrightness okWorld 0 connectedSession)
     = sessionOf (setDisplayBrightness okWorld 1 connectedSession)
  /\ effectsOf (setDisplayBrightness okWorld 0 connectedSession)
     = [ConsoleWarn
          "Display brightness: device may ignore 0 (off); sending 1 instead" [];
        WriteValueWithResponse [9; 1];
        ConsoleLog "Sent command:" [9; 1]].
Proof. vm_compute. repeat split. Qed.

(** ** Connection session *)

Ltac run_all :=
  unfold connect, reconnect, disconnect, onDisconnected, gattConnectCall,
    updateStatus, runTask, reconnectResolves, deviceName;
  unfold bind, try_catch, get, modify, emit, await, throw, ret, when.

(** [sendCommand] without a write endpoint: rejected, nothing written, the
    session untouched. *)
Lemma sendCommand_not_connected (w : World) (command value : Z) (s : Session) :
  connected s = false \/ writeChar s = None ->
  sendCommand w command value s
  = (Rejected (mkError "Not connected to device"), s, []).
Proof.
  intros H. unfold sendCommand, bind, get, throw.
  cbn. destruct H as [-> | ->]; cbn; [reflexivity|].
  destruct (connected s); reflexivity.
Qed.



(** An unsolicited disconnect of a connected session arms one timer. *)
Lemma onDisconnected_unsolicited (s : Session) (d : Device) :
  connected s = true -> device s = Some d -> intentionalDisconnect s = false ->
  let r := onDisconnected s in
  timers (effectsOf r) = [(ReconnectTask, 2000)]
  /\ gattConnects (effectsOf r) = 0%nat
  /\ connected (sessionOf r) = false
  /\ device (sessionOf r) = Some d
  /\ onStatusCallback (sessionOf r) = onStatusCallback s.
Proof.
  destruct s as [dev0 srv0 svc0 tc0 wc0 c0 cbD cbS i0 p0]. cbn.
  intros -> -> ->. run_all. destruct cbS; cbn; repeat split.
Qed.


(** Once the device is forgotten or the session is not connected, neither
    the disconnect event nor a pending timer leads to an attempt. *)
Lemma onDisconnected_idle (s : Session) :
  connected s = false \/ device s = None \/ intentionalDisconnect s = true ->
  timers (effectsOf (onDisconnected s)) = []
  /\ gattConnects (effectsOf (onDisconnected s)) = 0%nat.
Proof.
  destruct s as [dev0 srv0 svc0 tc0 wc0 c0 cbD cbS i0 p0]. cbn.
  intros H. run_all.
  destruct c0, dev0, i0, cbS; cbn; repeat split;
    destruct H as [H | [H | H]]; discriminate H.
Qed.





(** ** Fuel estimator *)

Lemma fold_left_map_add {A} (f : A -> float) (l : list A) (a : float) :
  fold_left (fun sum d => sum + f d)%float l a
  = fold_left PrimFloat.add (map f l) a.
Proof.
  revert a. induction l as [|x l IH]; intros a; cbn; [reflexivity|apply IH].
Qed.

Lemma average_is_mean {A} (f : A -> float) (l : list A) :
  (if (0 <? length l)%nat
   then (fold_left (fun sum d => sum + f d) l 0 / lengthF l)%float
   else 0%float)
  = mean (map f l).
Proof.
  destruct l as [|x l]; [reflexivity|].
  change (0 <? length (x :: l))%nat with true. cbv iota.
  unfold mean. rewrite fold_left_map_add.
  unfold lengthF. rewrite length_map. reflexivity.
Qed.

(** What one update leaves and shows, part by part. *)
Lemma updateFuelMonitor_parts (fm : FuelMonitor) (data : Telemetry) (now : Z) :
  let r := updateFuelMonitor fm data now in
  let duties :=
    filter (fun d => now - 1800000 <=? DutyEntry.time d)
           (fanDutyHistory fm ++ [DutyEntry.mk now (fanDutyPercent data)]) in
  let drops :=
    filter (fun d => now - 1800000 <=? DropEntry.time d)
           (pushTempDrop fm data now) in
  let level :=
    specLevel (length duties) (length drops)
      (mean (map DutyEntry.duty duties)) (mean (map DropEntry.rate drops)) in
  fanDutyHistory (fst r) = duties
  /\ tempDropHistory (fst r) = drops
  /\ lastPitTemp (fst r) = Some (pitTemp data)
  /\ lastCheckTime (fst r) = Some now
  /\ avgFanDuty (snd r) = mean (map DutyEntry.duty duties)
  /\ avgTempDrop (snd r) = mean (map DropEntry.rate drops)
  /\ fuelLevel (snd r) = level
  /\ notifications (snd r)
     = (if (level <=? 20) && negb (lowFuelAlerted fm)
        then [("Low Fuel Warning"%string,
               "BBQ fuel is running low. Consider adding more."%string)]
        else [])
  /\ lowFuelAlerted (fst r)
     = (if level <=? 20 then true
        else if level <=? 40 then lowFuelAlerted fm
        else false).
Proof.
  intros r duties0 drops0 level. subst r.
  unfold updateFuelMonitor; cbv zeta.
  match goal with
  | |- context [filter ?p (fanDutyHistory ?fm ++ ?e)] =>
      set (duties := filter p (fanDutyHistory fm ++ e)) in *
  end.
  match goal with
  | |- context [filter ?p (pushTempDrop ?fm ?d ?n)] =>
      set (drops := filter p (pushTempDrop fm d n)) in *
  end.
  match goal with
  | |- context [if (0 <? length duties)%nat then ?a else ?b] =>
      set (avgD := if (0 <? length duties)%nat then a else b) in *
  end.
  match goal with
  | |- context [if (0 <? length drops)%nat then ?a else ?b] =>
      set (avgT := if (0 <? length drops)%nat then a else b) in *
  end.
  match goal with
  | |- context [if (10 <? length duties)%nat && (5 <? length drops)%nat
                then ?a else ?b] =>
      set (lvl := if (10 <? length duties)%nat && (5 <? length drops)%nat
                  then a else b) in *
  end.
  change (30 * 60 * 1000) with 1800000 in *.
  assert (Hd : duties = duties0) by reflexivity.
  assert (Ht : drops = drops0) by reflexivity.
  assert (HaD : avgD = mean (map DutyEntry.duty duties0)).
  { subst avgD. rewrite Hd. apply average_is_mean. }
  assert (HaT : avgT = mean (map DropEntry.rate drops0)).
  { subst avgT. rewrite Ht. apply average_is_mean. }
  assert (Hl : lvl = level).
  { subst lvl level. rewrite HaD, HaT, Hd, Ht. unfold specLevel.
    destruct (Nat.ltb_spec 10 (length duties0)),
      (Nat.ltb_spec (length duties0) 11),
      (Nat.ltb_spec 5 (length drops0)),
      (Nat.ltb_spec (length drops0) 6); try lia; reflexivity. }
  clearbody duties drops avgD avgT lvl. subst.
  destruct (level <=? 20); [destruct (lowFuelAlerted fm)|destruct (level <=? 40)];
    cbn; repeat split.
Qed.

(** C6. After an update, both histories are the previous ones, extended by
    the new samples and pruned to entries with [time >= now - 30 min]
    (1 800 000 ms); the averages shown are the arithmetic means of the
    pruned histories (0 when empty); and the level is 100 while the duty
    history has fewer than 11 samples or the drop history fewer than 6,
    otherwise 20, 40, 70 or 100 by the thresholds of §4.4 step 7. *)
Theorem fuelLevel_classification (fm : FuelMonitor) (data : Telemetry) (now : Z) :
  let r := updateFuelMonitor fm data now in
  let duties := fanDutyHistory (fst r) in
  let drops := tempDropHistory (fst r) in
  let meanDuty := mean (map DutyEntry.duty duties) in
  let meanDrop := mean (map DropEntry.rate drops) in
  duties = filter (fun d => now - 1800000 <=? DutyEntry.time d)
             (fanDutyHistory fm ++ [DutyEntry.mk now (fanDutyPercent data)])
  /\ drops = filter (fun d => now - 1800000 <=? DropEntry.time d)
               (pushTempDrop fm data now)
  /\ avgFanDuty (snd r) = meanDuty
  /\ avgTempDrop (snd r) = meanDrop
  /\ fuelLevel (snd r) =
       (if (length duties <? 11)%nat || (length drops <? 6)%nat then 100
        else if PrimFloat.ltb 60 meanDuty && PrimFloat.ltb meanDrop (-0.5) then 20
        else if PrimFloat.ltb 50 meanDuty && PrimFloat.ltb meanDrop (-0.2) then 40
        else if PrimFloat.ltb 40 meanDuty then 70
        else 100).
Proof.
  intros r duties drops meanDuty meanDrop.
  destruct (updateFuelMonitor_parts fm data now)
    as (H1 & H2 & _ & _ & H5 & H6 & H7 & _).
  fold r in H1, H2, H5, H6, H7.
  subst meanDuty meanDrop duties drops.
  rewrite H1, H2. repeat split; assumption.
Qed.

(** The alert and the flag after one update, from the level shown. *)
Lemma alert_step (fm : FuelMonitor) (data : Telemetry) (now : Z) :
  let r := updateFuelMonitor fm data now in
  notifications (snd r)
  = (if (fuelLevel (snd r) <=? 20) && negb (lowFuelAlerted fm)
     then [lowFuelNote] else [])
  /\ lowFuelAlerted (fst r)
     = (if fuelLevel (snd r) <=? 20 then true
        else if fuelLevel (snd r) <=? 40 then lowFuelAlerted fm
        else false).
Proof.
  intros r.
  destruct (updateFuelMonitor_parts fm data now)
    as (_ & _ & _ & _ & _ & _ & H7 & H8 & H9).
  fold r in H7, H8, H9. rewrite H7. split; assumption.
Qed.

Lemma runFuel_cons (fm : FuelMonitor) (data : Telemetry) (now : Z)
    (rest : list (Telemetry * Z)) :
  runFuel fm ((data, now) :: rest)
  = (fst (runFuel (fst (updateFuelMonitor fm data now)) rest),
     snd (updateFuelMonitor fm data now)
       :: snd (runFuel (fst (updateFuelMonitor fm data now)) rest)).
Proof.
  cbn [runFuel].
  destruct (updateFuelMonitor fm data now) as [fm1 v]. cbn [fst snd].
  destruct (runFuel fm1 rest) as [fm2 vs]. reflexivity.
Qed.

Lemma runFuel_app (fm : FuelMonitor) (a b : list (Telemetry * Z)) :
  runFuel fm (a ++ b)
  = (fst (runFuel (fst (runFuel fm a)) b),
     snd (runFuel fm a) ++ snd (runFuel (fst (runFuel fm a)) b)).
Proof.
  revert fm. induction a as [|[data now] a IH]; intros fm.
  - cbn. destruct (runFuel fm b); reflexivity.
  - rewrite <- app_comm_cons. rewrite !runFuel_cons. rewrite IH. reflexivity.
Qed.

Lemma alerts_cons (v : FuelView) (vs : list FuelView) :
  alerts (v :: vs) = (length (notifications v) + alerts vs)%nat.
Proof. unfold alerts. cbn. apply length_app. Qed.

Lemma alerts_app (a b : list FuelView) :
  alerts (a ++ b) = (alerts a + alerts b)%nat.
Proof.
  unfold alerts. rewrite map_app, concat_app. apply length_app.
Qed.

(** While the level stays above 20 nothing is raised, and a clear flag
    stays clear. *)
Lemma run_above_20 (inputs : list (Telemetry * Z)) (fm : FuelMonitor) :
  forallb (fun v => 20 <? fuelLevel v) (snd (runFuel fm inputs)) = true ->
  alerts (snd (runFuel fm inputs)) = 0%nat
  /\ (lowFuelAlerted fm = false ->
      lowFuelAlerted (fst (runFuel fm inputs)) = false).
Proof.
  revert fm. induction inputs as [|[data now] rest IH]; intros fm H.
  - cbn. auto.
  - rewrite runFuel_cons in *. cbn [fst snd forallb] in *.
    apply andb_prop in H. destruct H as [Hv Hrest].
    destruct (alert_step fm data now) as [Hn Hf].
    destruct (IH _ Hrest) as [Ha Hk].
    apply Z.ltb_lt in Hv.
    assert (Hle : (fuelLevel (snd (updateFuelMonitor fm data now)) <=? 20) = false)
      by (apply Z.leb_gt; exact Hv).
    rewrite Hle in Hn, Hf. cbn in Hn.
    rewrite alerts_cons, Hn, Ha. split; [reflexivity|].
    intros Hfm. apply Hk. rewrite Hf, Hfm.
    destruct (_ <=? 40); reflexivity.
Qed.

(** While the level stays at or below 20, the alert is raised once if the
    flag was clear and not at all if it was set. *)
Lemma run_critical (inputs : list (Telemetry * Z)) (fm : FuelMonitor) :
  forallb (fun v => fuelLevel v <=? 20) (snd (runFuel fm inputs)) = true ->
  alerts (snd (runFuel fm inputs))
  = (if lowFuelAlerted fm then 0 else Nat.min 1 (length inputs))%nat.
Proof.
  revert fm. induction inputs as [|[data now] rest IH]; intros fm H.
  - cbn. destruct (lowFuelAlerted fm); reflexivity.
  - rewrite runFuel_cons in *. cbn [fst snd forallb] in *.
    apply andb_prop in H. destruct H as [Hv Hrest].
    destruct (alert_step fm data now) as [Hn Hf].
    rewrite Hv in Hn, Hf.
    rewrite alerts_cons, Hn, (IH _ Hrest), Hf.
    destruct (lowFuelAlerted fm); reflexivity.
Qed.

(** An alert is raised at a level of at most 20, and either the flag was
    clear before the run's first update or the update just before showed a
    level above 20. *)
Lemma alert_after_higher_level (inputs : list (Telemetry * Z))
    (fm : FuelMonitor) (pre : list FuelView) (v : FuelView)
    (post : list FuelView) :
  snd (runFuel fm inputs) = pre ++ v :: post ->
  notifications v <> [] ->
  fuelLevel v <= 20
  /\ ((pre = [] /\ lowFuelAlerted fm = false)
      \/ exists pre' u, pre = pre' ++ [u] /\ 20 < fuelLevel u).
Proof.
  revert fm pre. induction inputs as [|[data now] rest IH]; intros fm pre H Hn.
  - cbn in H. destruct pre; discriminate H.
  - rewrite runFuel_cons in H. cbn [snd] in H.
    destruct (alert_step fm data now) as [Hnote Hflag].
    destruct pre as [|p pre1]; cbn in H; injection H as Hv Hrest.
    + subst v. rewrite Hnote in Hn.
      destruct (_ <=? 20) eqn:Hle; [|cbn in Hn; congruence].
      destruct (lowFuelAlerted fm); [cbn in Hn; congruence|].
      apply Z.leb_le in Hle. auto.
    + destruct (IH _ _ Hrest Hn) as [Hl [[Hp Hf] | (pre' & u & Hp & Hu)]].
      * split; [exact Hl|]. right. exists [], p. subst pre1 p.
        split; [reflexivity|].
        rewrite Hflag in Hf.
        destruct (_ <=? 20) eqn:Hle; [discriminate Hf|].
        apply Z.leb_gt in Hle. exact Hle.
      * split; [exact Hl|]. right. exists (p :: pre'), u.
        subst pre1. split; [reflexivity|exact Hu].
Qed.

(** The first update of a fresh estimator shows level 100. *)
Lemma first_update_full (data : Telemetry) (now : Z) :
  fuelLevel (snd (updateFuelMonitor newFuelMonitor data now)) = 100.
Proof.
  destruct (updateFuelMonitor_parts newFuelMonitor data now)
    as (_ & _ & _ & _ & _ & _ & H7 & _).
  rewrite H7. unfold specLevel. cbn [pushTempDrop newFuelMonitor lastPitTemp
    tempDropHistory filter length].
  rewrite orb_true_r. reflexivity.
Qed.

(** C7, as the code has it. One update raises the low-fuel notification
    exactly when the level it shows is at most 20 and the alerted flag is
    clear; the flag is then set.  The flag is cleared by an update whose
    level is above 40 and is left as it is by one whose level is 40.  In a
    session started from a fresh estimator every alert comes right after an
    update that showed a level above 20.  Over a run that starts with the
    flag clear, stays above 20 and then stays at or below 20 for at least
    one update, exactly one alert is raised. *)
Theorem low_fuel_alert_one_shot (fm : FuelMonitor) (data : Telemetry) (now : Z) :
  let r := updateFuelMonitor fm data now in
  let level := fuelLevel (snd r) in
  (notifications (snd r)
   = if (level <=? 20) && negb (lowFuelAlerted fm) then [lowFuelNote] else [])
  /\ (level <= 20 -> lowFuelAlerted (fst r) = true)
  /\ (40 < level -> lowFuelAlerted (fst r) = false)
  /\ (20 < level <= 40 -> lowFuelAlerted (fst r) = lowFuelAlerted fm)
  /\ (forall inputs pre v post,
        snd (runFuel newFuelMonitor inputs) = pre ++ v :: post ->
        notifications v <> [] ->
        fuelLevel v <= 20
        /\ exists pre' u, pre = pre' ++ [u] /\ 20 < fuelLevel u)
  /\ (forall before critical,
        lowFuelAlerted fm = false ->
        critical <> [] ->
        forallb (fun v => 20 <? fuelLevel v) (snd (runFuel fm before)) = true ->
        forallb (fun v => fuelLevel v <=? 20)
                (snd (runFuel (fst (runFuel fm before)) critical)) = true ->
        alerts (snd (runFuel fm (before ++ critical))) = 1%nat).
Proof.
  intros r level.
  destruct (alert_step fm data now) as [Hn Hf]. fold r level in Hn, Hf.
  split; [exact Hn|].
  split.
  { intros H. apply Z.leb_le in H. rewrite Hf, H. reflexivity. }
  split.
  { intros H. rewrite Hf.
    destruct (Z.leb_spec level 20); [lia|].
    destruct (Z.leb_spec level 40); [lia|reflexivity]. }
  split.
  { intros H. rewrite Hf.
    destruct (Z.leb_spec level 20); [lia|].
    destruct (Z.leb_spec level 40); [reflexivity|lia]. }
  split.
  - intros inputs pre v post Hrun Hnote.
    destruct (alert_after_higher_level inputs newFuelMonitor pre v post Hrun Hnote)
      as [Hl [[Hp _] | Hex]]; [|split; assumption].
    exfalso. subst pre.
    destruct inputs as [|[d0 n0] rest]; [discriminate Hrun|].
    rewrite runFuel_cons in Hrun. cbn in Hrun. injection Hrun as Hv _.
    subst v. rewrite first_update_full in Hl. lia.
  - intros before critical Hclear Hne Hab Hcr.
    rewrite runFuel_app. cbn [snd]. rewrite alerts_app.
    destruct (run_above_20 before fm Hab) as [H0 Hk].
    rewrite H0, (run_critical critical _ Hcr), (Hk Hclear).
    destruct critical; [congruence|reflexivity].
Qed.

(** Fourteen readings one minute apart, the fan at manual speed 5 and the
    pit falling by 1 °F per minute: ten updates of warm-up, then four at the
    critical level, with one alert. *)
Lemma low_fuel_alert_one_shot_witness :
  alerts (snd (runFuel newFuelMonitor (steady 14 5 250 t0))) = 1%nat
  /\ map fuelLevel (snd (runFuel newFuelMonitor (steady 14 5 250 t0)))
     = [100; 100; 100; 100; 100; 100; 100; 100; 100; 100; 20; 20; 20; 20].
Proof.
  split; [|vm_compute; reflexivity].
  pose proof (low_fuel_alert_one_shot newFuelMonitor (reading 250 5 80) t0) as H.
  cbv zeta in H. destruct H as (_ & _ & _ & _ & _ & H).
  change (steady 14 5 250 t0)
    with (firstn 10 (steady 14 5 250 t0) ++ skipn 10 (steady 14 5 250 t0)).
  apply H.
  - reflexivity.
  - vm_compute. discriminate.
  - vm_compute. reflexivity.
  - vm_compute. reflexivity.
Defined.

(** C7 as stated fails: after twelve such readings the flag is set; a
    thirteenth in which the pit has recovered by 5 °F shows level 40, above
    20, and the flag is still set. *)
Lemma low_fuel_flag_kept_at_level_40 :
  let fm := fst (runFuel newFuelMonitor (steady 12 5 250 t0)) in
  let r := updateFuelMonitor fm (reading 244 5 80) (t0 + 720000) in
  lowFuelAlerted fm = true
  /\ fuelLevel (snd r) = 40
  /\ 20 < fuelLevel (snd r)
  /\ lowFuelAlerted (fst r) = true.
Proof. vm_compute. repeat split. Qed.

(** C4: what the code computes.  In manual mode the duty is
    [fanSpeed / 7 * 100]; in auto mode with a pit reading and a non-zero
    pit-set byte it is the clamp of [(target - pit) / 50 * 100 + 30] where
    the target is taken as [pitSet - 145]; otherwise it is 0. *)
Lemma fanDutyPercent_cases (data : Telemetry) :
  (fanSpeed data <> 0 ->
   fanDutyPercent data = (Z2F (fanSpeed data) / 7 * 100)%float)
  /\ (fanSpeed data = 0 -> pitTemp data <> 999 -> 0 < pitSet data ->
      fanDutyPercent data
      = Math_maxF 0 (Math_minF 100
          (Z2F (pitSet data - 145 - pitTemp data) / 50 * 100 + 30)))
  /\ (fanSpeed data = 0 -> pitTemp data = 999 \/ pitSet data <= 0 ->
      fanDutyPercent data = 0%float).
Proof.
  unfold fanDutyPercent. repeat split.
  - intros H. apply Z.eqb_neq in H. rewrite H. reflexivity.
  - intros -> Hp Hs. apply Z.eqb_neq in Hp. apply Z.ltb_lt in Hs.
    rewrite Hp, Hs. reflexivity.
  - intros -> [H | H]; cbn.
    + rewrite H. reflexivity.
    + apply Z.ltb_ge in H. rewrite H, andb_false_r. reflexivity.
Qed.

(** C4 at a reading in auto mode with the pit at 200 °F and the pit-set
    byte at 80, which the rest of the application reads as 225 °F: §4.4
    step 1 gives a duty of 80, the code computes 0 from a target of -65. *)
Theorem fanDuty_auto_target_offset :
  fanSpeed (reading 200 0 80) = 0
  /\ pitTemp (reading 200 0 80) = 200
  /\ pitSetTargetF (pitSet (reading 200 0 80)) = 225
  /\ specFanDuty (reading 200 0 80) = 80%float
  /\ fanDutyPercent (reading 200 0 80) = 0%float.
Proof. vm_compute. repeat split. Qed.

(** C5 at two readings one minute apart, the first with the pit probe
    disconnected (999), the second at 200 °F: the second update pushes a
    drop rate computed against 999, and the average shown is -799 °F/min. *)
Theorem sentinel_previous_pit_enters_drop_rate :
  let r := runFuel newFuelMonitor
             [(reading 999 5 80, t0); (reading 200 5 80, t0 + 60000)] in
  tempDropHistory (fst r) = [DropEntry.mk (t0 + 60000) (-799)]
  /\ map avgTempDrop (snd r) = [0%float; (-799)%float].
Proof. vm_compute. split; reflexivity. Qed.

(** The guard of the drop-rate block covers the current reading only: a
    sentinel reading pushes nothing, but it is remembered as the last pit
    temperature. *)
Lemma sentinel_current_reading_skipped (fm : FuelMonitor) (data : Telemetry)
    (now : Z) :
  pitTemp data = 999 ->
  pushTempDrop fm data now = tempDropHistory fm
  /\ lastPitTemp (fst (updateFuelMonitor fm data now)) = Some 999.
Proof.
  intros H. split.
  - unfold pushTempDrop. rewrite H. cbn.
    destruct (lastPitTemp fm), (lastCheckTime fm); reflexivity.
  - destruct (updateFuelMonitor_parts fm data now) as (_ & _ & H3 & _).
    rewrite H3, H. reflexivity.
Qed.

(* ================================================================== *)
(** * Further properties *)

(** ** Telemetry decoder: layout and ranges *)

Lemma getUint8_range (dv : DataView) (i : nat) (z : Z) :
  getUint8 dv i = Some z -> 0 <= z <= 255.
Proof.
  unfold getUint8. destruct (nth_error dv i) as [b|]; [|discriminate].
  cbn. intros H. injection H as <-.
  pose proof (Byte.to_N_bounded b). lia.
Qed.

Lemma getUint16_range (dv : DataView) (i : nat) (z : Z) :
  getUint16 dv i false = Some z -> 0 <= z <= 65535.
Proof.
  unfold getUint16.
  destruct (getUint8 dv i) as [a|] eqn:Ha; [|discriminate].
  destruct (getUint8 dv (S i)) as [b|] eqn:Hb; [|discriminate].
  intros H. injection H as <-.
  apply getUint8_range in Ha. apply getUint8_range in Hb. lia.
Qed.

(** Each field of a reading is the byte, or the big-endian pair, at its
    offset in the frame. *)
Lemma parseTelemetry_layout (dv : DataView) (data : Telemetry) :
  parseTelemetry dv = Some data ->
  getUint8 dv 0 = Some (pitAlarm data)
  /\ getUint8 dv 1 = Some (delayTime data)
  /\ getUint8 dv 2 = Some (delayPitSet data)
  /\ getUint16 dv 3 false = Some (pitTemp data)
  /\ getUint16 dv 5 false = Some (food1Temp data)
  /\ getUint16 dv 7 false = Some (food2Temp data)
  /\ getUint8 dv 9 = Some (byte9 data)
  /\ getUint8 dv 10 = Some (pitSet data)
  /\ getUint8 dv 11 = Some (food1Alarm data)
  /\ getUint8 dv 12 = Some (food2Alarm data)
  /\ getUint8 dv 13 = Some (fanDuty data)
  /\ getUint8 dv 14 = Some (byte14 data)
  /\ getUint8 dv 15 = Some (byte15 data)
  /\ getUint8 dv 16 = Some (food1TempTrigger data)
  /\ getUint8 dv 17 = Some (food1PitSet data)
  /\ getUint8 dv 18 = Some (food2TempTrigger data)
  /\ getUint8 dv 19 = Some (food2PitSet data)
  /\ uptimeMin data = Z.land (Z.shiftr (byte9 data) 4) 15
  /\ lidDetect data = Z.land (Z.shiftr (byte9 data) 3) 1
  /\ fanSpeed data = Z.land (byte9 data) 7
  /\ heartbeat data = Z.land (Z.shiftr (byte14 data) 7) 1
  /\ delayEnabled data = Z.land (byte14 data) 1
  /\ flags data
     = mkFlags (bitSet (byte15 data) 1) (bitSet (byte15 data) 2)
         (bitSet (byte15 data) 4) (bitSet (byte15 data) 8)
         (bitSet (byte15 data) 16) (bitSet (byte15 data) 32)
         (bitSet (byte15 data) 64) (bitSet (byte15 data) 128).
Proof.
  unfold parseTelemetry. intros H.
  repeat match type of H with
         | match ?o with _ => _ end = Some _ =>
             destruct o eqn:?; try discriminate H
         end.
  injection H as <-. cbn. repeat split; reflexivity.
Qed.

Lemma land_ones_small (b : Z) (n : Z) :
  0 <= n -> Z.land b (2 ^ n - 1) = b mod 2 ^ n.
Proof.
  intros Hn.
  replace (2 ^ n - 1) with (Z.ones n) by (rewrite Z.ones_equiv; lia).
  apply Z.land_ones. exact Hn.
Qed.

Lemma land_1 (b : Z) : Z.land b 1 = b mod 2.
Proof. apply (land_ones_small b 1). lia. Qed.

(** The fields packed in bytes 9 and 14, as arithmetic. *)
Lemma byte9_fields (b : Z) :
  Z.land (Z.shiftr b 4) 15 = (b / 16) mod 16
  /\ Z.land (Z.shiftr b 3) 1 = (b / 8) mod 2
  /\ Z.land b 7 = b mod 8.
Proof.
  rewrite !Z.shiftr_div_pow2 by lia. rewrite land_1.
  split; [apply (land_ones_small (b / 2 ^ 4) 4); lia|].
  split; [reflexivity|]. apply (land_ones_small b 3). lia.
Qed.

Lemma byte14_fields (b : Z) :
  Z.land (Z.shiftr b 7) 1 = (b / 128) mod 2 /\ Z.land b 1 = b mod 2.
Proof.
  rewrite Z.shiftr_div_pow2 by lia. rewrite !land_1. split; reflexivity.
Qed.

Lemma zrange_In (n : nat) (lo z : Z) :
  lo <= z < lo + Z.of_nat n -> In z (zrange lo n).
Proof.
  revert lo. induction n as [|n IH]; intros lo H; [lia|].
  cbn [zrange]. destruct (Z.eq_dec lo z) as [-> | Hne]; [left; reflexivity|].
  right. apply IH. lia.
Qed.

Lemma forallb_zrange (p : Z -> bool) (lo : Z) (n : nat) :
  forallb p (zrange lo n) = true ->
  forall z, lo <= z < lo + Z.of_nat n -> p z = true.
Proof.
  intros H z Hz. rewrite forallb_forall in H. apply H, zrange_In, Hz.
Qed.

Lemma flags_recompose (b : Z) :
  0 <= b <= 255 ->
  b = bit (bitSet b 1) 1 + bit (bitSet b 2) 2 + bit (bitSet b 4) 4
      + bit (bitSet b 8) 8 + bit (bitSet b 16) 16 + bit (bitSet b 32) 32
      + bit (bitSet b 64) 64 + bit (bitSet b 128) 128.
Proof.
  intros Hb.
  assert (H : forallb (fun b =>
                b =? bit (bitSet b 1) 1 + bit (bitSet b 2) 2
                     + bit (bitSet b 4) 4 + bit (bitSet b 8) 8
                     + bit (bitSet b 16) 16 + bit (bitSet b 32) 32
                     + bit (bitSet b 64) 64 + bit (bitSet b 128) 128)
              (zrange 0 256) = true) by (vm_compute; reflexivity).
  apply Z.eqb_eq. apply (forallb_zrange _ 0 256 H). lia.
Qed.

(** X1. The reading decoded from a frame is determined byte by byte: each
    of the fourteen one-byte fields is the byte at its offset and so lies in
    0..255; each of the three temperatures is [256 * high + low] of its pair
    of bytes, the first byte being the high one, and so lies in 0..65535;
    the uptime, lid and fan fields are the high nibble, bit 3 and the low
    three bits of byte 9, the heartbeat and delay bits are bits 7 and 0 of
    byte 14, and the eight flags are the bits of byte 15; bytes 9 and 15 can
    be put together again from the fields decoded out of them. *)
Theorem decoded_fields_ranges (dv : DataView) (data : Telemetry) :
  parseTelemetry dv = Some data ->
  (getUint8 dv 0 = Some (pitAlarm data)
   /\ getUint8 dv 1 = Some (delayTime data)
   /\ getUint8 dv 2 = Some (delayPitSet data)
   /\ getUint8 dv 9 = Some (byte9 data)
   /\ getUint8 dv 10 = Some (pitSet data)
   /\ getUint8 dv 11 = Some (food1Alarm data)
   /\ getUint8 dv 12 = Some (food2Alarm data)
   /\ getUint8 dv 13 = Some (fanDuty data)
   /\ getUint8 dv 14 = Some (byte14 data)
   /\ getUint8 dv 15 = Some (byte15 data)
   /\ getUint8 dv 16 = Some (food1TempTrigger data)
   /\ getUint8 dv 17 = Some (food1PitSet data)
   /\ getUint8 dv 18 = Some (food2TempTrigger data)
   /\ getUint8 dv 19 = Some (food2PitSet data))
  /\ (exists b3 b4 b5 b6 b7 b8,
        getUint8 dv 3 = Some b3 /\ getUint8 dv 4 = Some b4
        /\ getUint8 dv 5 = Some b5 /\ getUint8 dv 6 = Some b6
        /\ getUint8 dv 7 = Some b7 /\ getUint8 dv 8 = Some b8
        /\ pitTemp data = 256 * b3 + b4
        /\ food1Temp data = 256 * b5 + b6
        /\ food2Temp data = 256 * b7 + b8)
  /\ (0 <= pitTemp data <= 65535 /\ 0 <= food1Temp data <= 65535
      /\ 0 <= food2Temp data <= 65535)
  /\ (0 <= pitAlarm data <= 255 /\ 0 <= delayTime data <= 255
      /\ 0 <= delayPitSet data <= 255 /\ 0 <= byte9 data <= 255
      /\ 0 <= pitSet data <= 255 /\ 0 <= food1Alarm data <= 255
      /\ 0 <= food2Alarm data <= 255 /\ 0 <= fanDuty data <= 255
      /\ 0 <= byte14 data <= 255 /\ 0 <= byte15 data <= 255
      /\ 0 <= food1TempTrigger data <= 255 /\ 0 <= food1PitSet data <= 255
      /\ 0 <= food2TempTrigger data <= 255 /\ 0 <= food2PitSet data <= 255)
  /\ (uptimeMin data = byte9 data / 16
      /\ lidDetect data = (byte9 data / 8) mod 2
      /\ fanSpeed data = byte9 data mod 8
      /\ heartbeat data = byte14 data / 128
      /\ delayEnabled data = byte14 data mod 2)
  /\ (0 <= fanSpeed data <= 7 /\ 0 <= lidDetect data <= 1
      /\ 0 <= uptimeMin data <= 15 /\ 0 <= heartbeat data <= 1
      /\ 0 <= delayEnabled data <= 1)
  /\ flags data
     = mkFlags (bitSet (byte15 data) 1) (bitSet (byte15 data) 2)
         (bitSet (byte15 data) 4) (bitSet (byte15 data) 8)
         (bitSet (byte15 data) 16) (bitSet (byte15 data) 32)
         (bitSet (byte15 data) 64) (bitSet (byte15 data) 128)
  /\ byte9 data = 16 * uptimeMin data + 8 * lidDetect data + fanSpeed data
  /\ byte15 data
     = bit (unknown (flags data)) 1 + bit (food1Enabled (flags data)) 2
       + bit (food2Enabled (flags data)) 4 + bit (food1Done (flags data)) 8
       + bit (food2Done (flags data)) 16 + bit (pitHot (flags data)) 32
       + bit (pitCold (flags data)) 64 + bit (lidOpen (flags data)) 128.
Proof.
  intros H. pose proof (parseTelemetry_layout dv data H) as L.
  destruct L as (L0 & L1 & L2 & L3 & L5 & L7 & L9 & L10 & L11 & L12 & L13
                 & L14 & L15 & L16 & L17 & L18 & L19 & U & Li & F & Hb & De
                 & Fl).
  split; [repeat split; assumption|].
  assert (Hpair : forall i t, getUint16 dv i false = Some t ->
             exists hi lo, getUint8 dv i = Some hi
                           /\ getUint8 dv (S i) = Some lo
                           /\ t = 256 * hi + lo).
  { intros i t Ht. unfold getUint16 in Ht.
    destruct (getUint8 dv i) as [hi|]; [|discriminate Ht].
    destruct (getUint8 dv (S i)) as [lo|]; [|discriminate Ht].
    injection Ht as <-. exists hi, lo. repeat split. lia. }
  split.
  { destruct (Hpair _ _ L3) as (b3 & b4 & H3 & H4 & E3).
    destruct (Hpair _ _ L5) as (b5 & b6 & H5 & H6 & E5).
    destruct (Hpair _ _ L7) as (b7 & b8 & H7 & H8 & E7).
    exists b3, b4, b5, b6, b7, b8. repeat split; assumption. }
  split.
  { repeat split; eapply getUint16_range; eassumption || fail. }
  apply getUint8_range in L0, L1, L2, L9, L10, L11, L12, L13, L14, L15,
    L16, L17, L18, L19.
  split; [repeat split; lia|].
  pose proof (byte9_fields (byte9 data)) as (B1 & B2 & B3).
  pose proof (byte14_fields (byte14 data)) as (B4 & B5).
  assert (E16 : (byte9 data / 16) mod 16 = byte9 data / 16).
  { apply Z.mod_small. split; [apply Z.div_pos; lia|].
    apply Z.div_lt_upper_bound; lia. }
  assert (E128 : (byte14 data / 128) mod 2 = byte14 data / 128).
  { apply Z.mod_small. split; [apply Z.div_pos; lia|].
    apply Z.div_lt_upper_bound; lia. }
  rewrite U, Li, F, Hb, De, B1, B2, B3, B4, B5, E16, E128.
  pose proof (Z.mod_pos_bound (byte9 data / 8) 2).
  pose proof (Z.mod_pos_bound (byte9 data) 8).
  pose proof (Z.mod_pos_bound (byte14 data) 2).
  assert (0 <= byte9 data / 16 <= 15).
  { split; [apply Z.div_pos; lia|].
    assert (byte9 data / 16 < 16) by (apply Z.div_lt_upper_bound; lia). lia. }
  assert (0 <= byte14 data / 128 <= 1).
  { split; [apply Z.div_pos; lia|].
    assert (byte14 data / 128 < 2) by (apply Z.div_lt_upper_bound; lia). lia. }
  split; [repeat split|].
  split; [repeat split; lia|].
  split; [exact Fl|].
  split.
  { pose proof (Z.div_mod (byte9 data) 8).
    pose proof (Z.div_mod (byte9 data / 8) 2).
    assert (byte9 data / 8 / 2 = byte9 data / 16)
      by (rewrite Z.div_div by lia; reflexivity).
    lia. }
  rewrite Fl. cbn. apply flags_recompose. lia.
Qed.

Lemma decoded_fields_ranges_witness :
  byte9 (reading 200 50 80)
  = 16 * uptimeMin (reading 200 50 80) + 8 * lidDetect (reading 200 50 80)
    + fanSpeed (reading 200 50 80)
  /\ 0 <= fanSpeed (reading 200 50 80) <= 7.
Proof.
  destruct (decoded_fields_ranges (frame 200 50 80) (reading 200 50 80))
    as (_ & _ & _ & _ & _ & (Hf & _) & _ & H9 & _).
  - vm_compute. reflexivity.
  - split; [exact H9 | exact Hf].
Defined.

(** ** Connection session: [connect], [disconnect], [sendCommand] *)

Ltac open_session :=
  unfold connect, reconnect, disconnect, onDisconnected, gattConnectLoop,
    gattConnectCall, updateStatus, runTask, deviceName;
  unfold bind, try_catch, get, modify, emit, await, throw, ret, when.

(** Case analysis on the promises of [w], in the order the run awaits them. *)
Ltac world_cases w :=
  repeat (simpl;
          match goal with
          | |- context [match requestDevice w with _ => _ end] =>
              destruct (requestDevice w) as [[? [|]]|?]
          | |- context [match gattConnect w ?n with _ => _ end] =>
              destruct (gattConnect w n)
          | |- context [match getPrimaryService w with _ => _ end] =>
              destruct (getPrimaryService w)
          | |- context [match getCharacteristic w ?u with _ => _ end] =>
              destruct (getCharacteristic w u)
          | |- context [match readValue w with _ => _ end] =>
              destruct (readValue w)
          | |- context [match startNotifications w with _ => _ end] =>
              destruct (startNotifications w)
          end);
  simpl.

(** What [connect] does in every world: it returns a boolean, which is the
    new value of [connected] when the session was not connected; it calls
    [gatt.connect()] at most three times with at most two pauses, each of
    one second; it arms no timer and leaves the intentional flag as it
    is; and it never clears the [paired] flag. *)
Lemma connect_run (w : World) (s : Session) :
  exists b s' l,
    connect w s = (Resolved b, s', l)
    /\ (connected s = false -> connected s' = b)
    /\ (b = true -> connected s' = true
                    /\ isSome (device s') = true
                    /\ isSome (server s') = true
                    /\ isSome (telemetryChar s') = true)
    /\ (gattConnects l <= 3)%nat
    /\ (length (sleeps l) <= 2)%nat
    /\ Forall (fun ms => ms = 1000) (sleeps l)
    /\ timers l = []
    /\ intentionalDisconnect s' = intentionalDisconnect s
    /\ (paired s = true -> paired s' = true).
Proof.
  destruct s as [dev0 srv0 svc0 tc0 wc0 c0 cbD cbS i0 p0].
  open_session. destruct cbS, srv0; world_cases w;
    (do 3 eexists; split; [reflexivity|]);
    cbn;
    (split; [intros; subst; reflexivity|]);
    (split; [intros; try discriminate; repeat split|]);
    repeat split; auto; try lia; repeat constructor.
Qed.

Lemma connect_outcome (w : World) (s : Session) :
  let r := connect w s in
  (exists b, resultOf r = Resolved b
             /\ (connected s = false -> connected (sessionOf r) = b)
             /\ (b = true -> connected (sessionOf r) = true
                             /\ isSome (device (sessionOf r)) = true
                             /\ isSome (server (sessionOf r)) = true
                             /\ isSome (telemetryChar (sessionOf r)) = true))
  /\ (gattConnects (effectsOf r) <= 3)%nat
  /\ (length (sleeps (effectsOf r)) <= 2)%nat
  /\ Forall (fun ms => ms = 1000) (sleeps (effectsOf r))
  /\ timers (effectsOf r) = []
  /\ intentionalDisconnect (sessionOf r) = intentionalDisconnect s
  /\ (paired s = true -> paired (sessionOf r) = true).
Proof.
  intros r. subst r.
  destruct (connect_run w s)
    as (b & s' & l & -> & H1 & H2 & H3 & H4 & H5 & H6 & H7 & H8).
  unfold resultOf, sessionOf, effectsOf. cbn [fst snd].
  split; [exists b; auto|]. repeat split; assumption.
Qed.

(** X2. [connect] never rejects: in every world it returns a boolean.  On a
    session that was not connected the boolean is the new value of
    [connected], and [true] comes with a device, a server and a telemetry
    characteristic in place. *)
Theorem connect_never_rejects (w : World) (s : Session) :
  connected s = false ->
  exists b,
    resultOf (connect w s) = Resolved b
    /\ connected (sessionOf (connect w s)) = b
    /\ (b = true ->
        isSome (device (sessionOf (connect w s))) = true
        /\ isSome (server (sessionOf (connect w s))) = true
        /\ isSome (telemetryChar (sessionOf (connect w s))) = true).
Proof.
  intros Hc.
  destruct (connect_outcome w s) as ((b & Hr & Hcon & Hok) & _).
  exists b. split; [exact Hr|]. split; [exact (Hcon Hc)|].
  intros Hb. destruct (Hok Hb) as (_ & H1 & H2 & H3). auto.
Qed.

Lemma connect_never_rejects_witness :
  exists b,
    resultOf (connect deadWorld initSession) = Resolved b
    /\ connected (sessionOf (connect deadWorld initSession)) = b.
Proof.
  destruct (connect_never_rejects deadWorld initSession) as (b & H1 & H2 & _).
  - reflexivity.
  - exists b. split; assumption.
Defined.

(** X3. Whatever the world does, one [connect] calls [gatt.connect()] at
    most three times, pauses at most twice and for one second each time,
    arms no timer and leaves the intentional-disconnect flag as it found
    it. *)
Theorem connect_attempt_budget (w : World) (s : Session) :
  (gattConnects (effectsOf (connect w s)) <= 3)%nat
  /\ (length (sleeps (effectsOf (connect w s))) <= 2)%nat
  /\ Forall (fun ms => ms = 1000) (sleeps (effectsOf (connect w s)))
  /\ timers (effectsOf (connect w s)) = []
  /\ intentionalDisconnect (sessionOf (connect w s)) = intentionalDisconnect s.
Proof.
  destruct (connect_outcome w s) as (_ & H1 & H2 & H3 & H4 & H5 & _).
  repeat split; assumption.
Qed.

(** X4. When the device is chosen but all three calls of [gatt.connect()]
    are rejected and no server handle is left from before, [connect]
    returns [false] after exactly three attempts and two one-second pauses;
    the observer sees 'Retrying... (2 left)', 'Retrying... (1 left)' and at
    last 'disconnected' with the message of the third error; nothing is
    requested of the device beyond that, and the session changes only in
    remembering the device. *)
Theorem connect_gives_up_after_three (w : World) (s : Session) (d : Device)
    (e0 e1 e2 : Error) :
  requestDevice w = Resolved d ->
  gatt d = true ->
  gattConnect w 0 = Rejected e0 ->
  gattConnect w 1 = Rejected e1 ->
  gattConnect w 2 = Rejected e2 ->
  server s = None ->
  onStatusCallback s = true ->
  let r := connect w s in
  resultOf r = Resolved false
  /\ gattOps (effectsOf r)
     = [RequestDevice; ListenDisconnected; GattConnect; Sleep 1000;
        GattConnect; Sleep 1000; GattConnect]
  /\ statuses (effectsOf r)
     = [("connecting", "Scanning for devices...");
        ("connecting", "Connecting to " ++ name d ++ "...");
        ("connecting", "Retrying... (2 left)");
        ("connecting", "Retrying... (1 left)");
        ("disconnected", connectErrorMessage e2)]%string
  /\ sessionOf r = set_device (Some d) s.
Proof.
  intros Hdev Hgatt H0 H1 H2 Hsrv Hcb r. subst r.
  destruct s as [dev0 srv0 svc0 tc0 wc0 c0 cbD cbS i0 p0].
  cbn in Hsrv, Hcb. subst. open_session.
  cbn; rewrite Hdev; cbn; rewrite Hgatt; cbn; rewrite H0; cbn;
    rewrite Hgatt; cbn; rewrite H1; cbn; rewrite Hgatt; cbn; rewrite H2; cbn.
  repeat split.
Qed.

Lemma connect_gives_up_after_three_witness :
  resultOf (connect deadWorld initSession) = Resolved false
  /\ gattConnects (effectsOf (connect deadWorld initSession)) = 3%nat
  /\ sleeps (effectsOf (connect deadWorld initSession)) = [1000; 1000].
Proof.
  destruct (connect_gives_up_after_three deadWorld initSession iQE050
              (mkError "Connection attempt failed")
              (mkError "Connection attempt failed")
              (mkError "Connection attempt failed"))
    as (H1 & _); try reflexivity.
  split; [exact H1|]. vm_compute. split; reflexivity.
Defined.

(** X5. The authorization probe is not fatal: when the read of the write
    characteristic is rejected and everything else resolves, [connect]
    still returns [true] with the write endpoint in place; the [paired]
    flag is left as it was and the failure shows only as a console
    warning. *)
Theorem connect_probe_failure_not_fatal (w : World) (s : Session)
    (d : Device) (srv : Server) (svc : Service) (tc wc : Characteristic)
    (e : Error) :
  requestDevice w = Resolved d ->
  gatt d = true ->
  gattConnect w 0 = Resolved srv ->
  getPrimaryService w = Resolved svc ->
  getCharacteristic w TELEMETRY_UUID = Resolved tc ->
  getCharacteristic w WRITE_AUTH_UUID = Resolved wc ->
  readValue w = Rejected e ->
  startNotifications w = Resolved tt ->
  let r := connect w s in
  resultOf r = Resolved true
  /\ connected (sessionOf r) = true
  /\ writeChar (sessionOf r) = Some wc
  /\ paired (sessionOf r) = paired s
  /\ warnings (effectsOf r)
     = ["Read from write char failed (may need pairing):"%string]
  /\ forall w' command value,
       framesWritten (effectsOf (sendCommand w' command value (sessionOf r)))
       = [Uint8Array [command; value]].
Proof.
  intros Hdev Hgatt Hconn Hsvc Htc Hwc Hrv Hstart r.
  assert (Hr : resultOf r = Resolved true
               /\ connected (sessionOf r) = true
               /\ writeChar (sessionOf r) = Some wc
               /\ paired (sessionOf r) = paired s
               /\ warnings (effectsOf r)
                  = ["Read from write char failed (may need pairing):"%string]).
  { subst r. destruct s as [dev0 srv0 svc0 tc0 wc0 c0 cbD cbS i0 p0].
    open_session.
    change (getCharacteristic w "5fb70001-9c92-4489-ab95-5bc20bb36eab")
      with (getCharacteristic w TELEMETRY_UUID).
    change (getCharacteristic w "5fb70004-9c92-4489-ab95-5bc20bb36eab")
      with (getCharacteristic w WRITE_AUTH_UUID).
    destruct cbS; cbn; rewrite Hdev; cbn; rewrite Hgatt; cbn; rewrite Hconn;
      cbn; rewrite Hsvc; cbn; rewrite Htc; cbn; rewrite Hwc; cbn;
      rewrite Hrv; cbn; rewrite Hstart; cbn; repeat split. }
  destruct Hr as (H1 & H2 & H3 & H4 & H5).
  repeat split; try assumption.
  intros w' command value. apply sendCommand_frames; [exact H2|].
  rewrite H3. discriminate.
Qed.

Lemma connect_probe_failure_not_fatal_witness :
  let w := {| requestDevice := Resolved iQE050;
              gattConnect := fun _ => Resolved GattServer;
              getPrimaryService := Resolved (GattService SERVICE_UUID);
              getCharacteristic := fun u => Resolved (GattCharacteristic u);
              readValue := Rejected (mkError "GATT operation not permitted.");
              startNotifications := Resolved tt;
              writeValueWithResponse := fun _ => Resolved tt |} in
  resultOf (connect w initSession) = Resolved true
  /\ paired (sessionOf (connect w initSession)) = false.
Proof.
  intros w.
  destruct (connect_probe_failure_not_fatal w initSession iQE050 GattServer
              (GattService SERVICE_UUID) (GattCharacteristic TELEMETRY_UUID)
              (GattCharacteristic WRITE_AUTH_UUID)
              (mkError "GATT operation not permitted."))
    as (H1 & _ & _ & H4 & _); try reflexivity.
  split; [exact H1 | exact H4].
Defined.

(** X6. On a session with a write endpoint [sendCommand] writes exactly one
    frame, the two arguments reduced to bytes.  If the device acknowledges
    the write, the call returns [true] and the session changes only in being
    marked paired; if the write is rejected, the same error reaches the
    caller and the session is left as it was. *)
Theorem sendCommand_outcomes (w : World) (command value : Z) (s : Session) :
  connected s = true -> writeChar s <> None ->
  let frame := [command mod 256; value mod 256] in
  let r := sendCommand w command value s in
  framesWritten (effectsOf r) = [frame]
  /\ (writeValueWithResponse w frame = Resolved tt ->
      resultOf r = Resolved true /\ sessionOf r = set_paired true s)
  /\ (forall e, writeValueWithResponse w frame = Rejected e ->
      resultOf r = Rejected e /\ sessionOf r = s).
Proof.
  intros Hc Hw frame r.
  split; [apply sendCommand_frames; assumption|].
  subst r frame. unfold sendCommand, bind, get, try_catch, emit, await,
    modify, throw, ret, when.
  rewrite Hc. destruct (writeChar s); [|congruence]. cbn.
  split.
  - intros ->. cbn. split; reflexivity.
  - intros e ->. cbn.
    destruct (includes _ _ || includes _ _ || includes _ _); cbn;
      split; reflexivity.
Qed.

Lemma sendCommand_outcomes_witness :
  resultOf (sendCommand okWorld 6 3 connectedSession) = Resolved true
  /\ framesWritten (effectsOf (sendCommand okWorld 6 3 connectedSession))
     = [[6; 3]].
Proof.
  destruct (sendCommand_outcomes okWorld 6 3 connectedSession)
    as (H1 & H2 & _).
  - vm_compute. reflexivity.
  - vm_compute. discriminate.
  - split; [apply H2; reflexivity | exact H1].
Defined.

(** What [disconnect] and the disconnect event after it leave. *)
Lemma disconnect_effects (linkUp : bool) (s : Session) :
  device s = None \/ (exists d, device s = Some d /\ gatt d = true) ->
  let r := disconnect linkUp s in
  resultOf r = Resolved tt
  /\ sessionOf r = set_intentionalDisconnect true (cleared s)
  /\ gattOps (effectsOf r)
     = (if isSome (device s) && linkUp then [GattDisconnect] else [])
  /\ sessionOf (onDisconnected (sessionOf r)) = cleared s
  /\ timers (effectsOf (onDisconnected (sessionOf r))) = [].
Proof.
  destruct s as [dev0 srv0 svc0 tc0 wc0 c0 cbD cbS i0 p0]. cbn.
  intros [-> | [[nm g] [-> Hg]]]; cbn in *; subst; run_all;
    destruct cbS, linkUp; cbn; repeat split.
Qed.



Lemma onDisconnected_resets (s : Session) :
  connected (sessionOf (onDisconnected s)) = false
  /\ intentionalDisconnect (sessionOf (onDisconnected s)) = false
  /\ device (sessionOf (onDisconnected s)) = device s
  /\ writeChar (sessionOf (onDisconnected s)) = None
  /\ paired (sessionOf (onDisconnected s)) = paired s.
Proof.
  destruct s as [dev0 srv0 svc0 tc0 wc0 c0 cbD cbS i0 p0]. run_all.
  destruct cbS, c0, dev0, i0; cbn; repeat split.
Qed.

(** X8. The intentional flag outlives a [disconnect()] that no disconnect
    event follows (the link was already down, so [gatt.disconnect()] is not
    called): the flag is still set after the next successful [connect], and
    the first unsolicited disconnect of that session arms no reconnect
    timer, only lowering the flag.  When the event does follow the
    [disconnect()], the next session's disconnect arms the timer. *)
Theorem stale_intentional_flag (w : World) (s : Session) :
  device s = None \/ (exists d, device s = Some d /\ gatt d = true) ->
  let s1 := sessionOf (disconnect false s) in
  (resultOf (connect w s1) = Resolved true ->
   intentionalDisconnect (sessionOf (connect w s1)) = true
   /\ timers (effectsOf (onDisconnected (sessionOf (connect w s1)))) = []
   /\ intentionalDisconnect
        (sessionOf (onDisconnected (sessionOf (connect w s1)))) = false)
  /\ (resultOf (connect w (sessionOf (onDisconnected s1))) = Resolved true ->
      timers (effectsOf (onDisconnected
                (sessionOf (connect w (sessionOf (onDisconnected s1))))))
      = [(ReconnectTask, 2000)]).
Proof.
  intros Hd s1.
  destruct (disconnect_effects false s Hd) as (_ & Hs1 & _ & Hs1' & _).
  fold s1 in Hs1, Hs1'.
  split.
  - intros Hr.
    destruct (connect_outcome w s1) as (_ & _ & _ & _ & _ & Hflag & _).
    assert (Hf : intentionalDisconnect (sessionOf (connect w s1)) = true).
    { rewrite Hflag, Hs1. reflexivity. }
    split; [exact Hf|]. split.
    + apply onDisconnected_idle. auto.
    + apply onDisconnected_resets.
  - intros Hr.
    destruct (connect_outcome w (sessionOf (onDisconnected s1)))
      as ((b & Hb & _ & Hok) & _ & _ & _ & _ & Hflag & _).
    rewrite Hr in Hb. injection Hb as <-.
    destruct (Hok eq_refl) as (Hc & Hdev & _).
    destruct (device (sessionOf (connect w (sessionOf (onDisconnected s1)))))
      as [d|] eqn:Ed; [|discriminate Hdev].
    apply (onDisconnected_unsolicited _ d Hc Ed).
    rewrite Hflag, Hs1'. reflexivity.
Qed.

Lemma stale_intentional_flag_witness :
  timers (effectsOf (onDisconnected
            (sessionOf (connect okWorld
               (sessionOf (disconnect false connectedSession)))))) = []
  /\ timers (effectsOf (onDisconnected
               (sessionOf (connect okWorld
                  (sessionOf (onDisconnected
                     (sessionOf (disconnect false connectedSession))))))))
     = [(ReconnectTask, 2000)].
Proof.
  destruct (stale_intentional_flag okWorld connectedSession) as (H1 & H2).
  - right. exists iQE050. split; reflexivity.
  - split.
    + apply H1. vm_compute. reflexivity.
    + apply H2. vm_compute. reflexivity.
Defined.

(** X9. After an unsolicited disconnect every [sendCommand] is rejected
    with 'Not connected to device' and writes nothing, through the two
    seconds of waiting.  Once [reconnect] has gone through, commands are
    written again if it found the write characteristic; if that lookup was
    rejected the session is connected but every command is still
    rejected. *)
Theorem commands_across_reconnect (w : World) (s : Session) (d : Device) :
  connected s = true -> device s = Some d -> gatt d = true ->
  intentionalDisconnect s = false ->
  reconnectResolves w = true ->
  let s1 := sessionOf (onDisconnected s) in
  let s2 := sessionOf (runTask w ReconnectTask s1) in
  (forall w' command value,
     sendCommand w' command value s1
     = (Rejected (mkError "Not connected to device"), s1, []))
  /\ connected s2 = true
  /\ (forall wc, getCharacteristic w WRITE_AUTH_UUID = Resolved wc ->
      forall w' command value,
        framesWritten (effectsOf (sendCommand w' command value s2))
        = [Uint8Array [command; value]])
  /\ (forall e, getCharacteristic w WRITE_AUTH_UUID = Rejected e ->
      forall w' command value,
        sendCommand w' command value s2
        = (Rejected (mkError "Not connected to device"), s2, [])).
Proof.
  intros Hc Hd Hg Hi Hw s1 s2.
  destruct (onDisconnected_resets s) as (C1 & _ & D1 & W1 & _).
  fold s1 in C1, D1, W1.
  split.
  { intros. apply sendCommand_not_connected. auto. }
  assert (H2 : connected s2 = true
               /\ writeChar s2
                  = match getCharacteristic w WRITE_AUTH_UUID with
                    | Resolved wc => Some wc
                    | Rejected _ => None
                    end).
  { subst s2. rewrite Hd in D1. clear - C1 D1 Hg Hw.
    destruct s1 as [dev0 srv0 svc0 tc0 wc0 c0 cbD cbS i0 p0].
    destruct d as [nm g]. cbn in *. subst.
    revert Hw. run_all.
    change (getCharacteristic w "5fb70001-9c92-4489-ab95-5bc20bb36eab")
      with (getCharacteristic w TELEMETRY_UUID).
    change (getCharacteristic w "5fb70004-9c92-4489-ab95-5bc20bb36eab")
      with (getCharacteristic w WRITE_AUTH_UUID).
    destruct (gattConnect w 0), (getPrimaryService w),
      (getCharacteristic w TELEMETRY_UUID),
      (getCharacteristic w WRITE_AUTH_UUID), (startNotifications w);
      destruct cbS; cbn; intros; try discriminate; split; reflexivity. }
  destruct H2 as (C2 & W2).
  split; [exact C2|]. split.
  - intros wc Hwc w' command value. rewrite Hwc in W2.
    apply sendCommand_frames; [exact C2|]. rewrite W2. discriminate.
  - intros e He w' command value. rewrite He in W2.
    apply sendCommand_not_connected. auto.
Qed.

Lemma commands_across_reconnect_witness :
  resultOf (setFanSpeed okWorld 3 (sessionOf (onDisconnected connectedSession)))
  = Rejected (mkError "Not connected to device")
  /\ connected (sessionOf (runTask okWorld ReconnectTask
                  (sessionOf (onDisconnected connectedSession)))) = true.
Proof.
  destruct (commands_across_reconnect okWorld connectedSession iQE050)
    as (H1 & H2 & _); try reflexivity.
  split; [|exact H2].
  unfold setFanSpeed. cbv zeta. rewrite H1. reflexivity.
Defined.

(** X10. No method of the session clears the [paired] flag once it is
    set. *)
Theorem paired_never_cleared (w : World) (s : Session) :
  paired s = true ->
  paired (sessionOf (connect w s)) = true
  /\ paired (sessionOf (reconnect w s)) = true
  /\ paired (sessionOf (onDisconnected s)) = true
  /\ (forall linkUp, paired (sessionOf (disconnect linkUp s)) = true)
  /\ (forall command value,
        paired (sessionOf (sendCommand w command value s)) = true)
  /\ (forall dv, paired (sessionOf (handleTelemetry dv s)) = true).
Proof.
  intros Hp.
  split; [apply connect_outcome; exact Hp|].
  split.
  { destruct s as [dev0 srv0 svc0 tc0 wc0 c0 cbD cbS i0 p0].
    cbn in Hp. subst. run_all.
    destruct dev0 as [[nm [|]]|]; destruct cbS; world_cases w; reflexivity. }
  split; [rewrite <- Hp; apply onDisconnected_resets|].
  split.
  { intros linkUp. destruct s as [dev0 srv0 svc0 tc0 wc0 c0 cbD cbS i0 p0].
    cbn in Hp. subst. run_all.
    destruct dev0 as [[nm [|]]|]; destruct cbS, linkUp; reflexivity. }
  split.
  { intros command value.
    destruct s as [dev0 srv0 svc0 tc0 wc0 c0 cbD cbS i0 p0].
    cbn in Hp. subst.
    unfold sendCommand, bind, get, try_catch, emit, await, modify, throw,
      ret, when. cbn.
    destruct c0, wc0; cbn; try reflexivity.
    destruct (writeValueWithResponse w _); cbn; [reflexivity|].
    destruct (includes _ _ || includes _ _ || includes _ _); reflexivity. }
  intros dv. unfold handleTelemetry, bind, get, emit, throw, ret, when.
  destruct (negb (byteLength dv =? 20)); cbn; [exact Hp|].
  destruct (parseTelemetry dv); cbn; [|exact Hp].
  destruct (onDataCallback s); exact Hp.
Qed.

Lemma paired_never_cleared_witness :
  paired (sessionOf (disconnect true connectedSession)) = true
  /\ paired (sessionOf (connect deadWorld connectedSession)) = true.
Proof.
  destruct (paired_never_cleared deadWorld connectedSession) as (H1 & _ & _ & H4 & _).
  - reflexivity.
  - split; [apply H4 | exact H1].
Defined.

(** X11. [connect] stops retrying at the first call of [gatt.connect()]
    that succeeds: when the first call is rejected and the second resolves,
    with the rest of the world willing, it pauses once for a second, shows
    'Retrying... (2 left)' once, makes no third call and returns [true]. *)
Theorem connect_succeeds_on_retry (w : World) (s : Session) (d : Device)
    (e0 : Error) (srv : Server) (svc : Service) (tc wc : Characteristic) :
  requestDevice w = Resolved d ->
  gatt d = true ->
  gattConnect w 0 = Rejected e0 ->
  gattConnect w 1 = Resolved srv ->
  getPrimaryService w = Resolved svc ->
  getCharacteristic w TELEMETRY_UUID = Resolved tc ->
  getCharacteristic w WRITE_AUTH_UUID = Resolved wc ->
  readValue w = Resolved tt ->
  startNotifications w = Resolved tt ->
  onStatusCallback s = true ->
  let r := connect w s in
  resultOf r = Resolved true
  /\ gattOps (effectsOf r)
     = [RequestDevice; ListenDisconnected; GattConnect; Sleep 1000;
        GattConnect; GetPrimaryService SERVICE_UUID;
        GetCharacteristic TELEMETRY_UUID; GetCharacteristic WRITE_AUTH_UUID;
        ReadValue; StartNotifications; ListenValueChanged]
  /\ statuses (effectsOf r)
     = [("connecting", "Scanning for devices...");
        ("connecting", "Connecting to " ++ name d ++ "...");
        ("connecting", "Retrying... (2 left)");
        ("connected", "Connected to " ++ name d)]%string
  /\ connected (sessionOf r) = true
  /\ paired (sessionOf r) = true.
Proof.
  intros Hdev Hgatt H0 H1 Hsvc Htc Hwc Hrv Hstart Hcb r. subst r.
  destruct s as [dev0 srv0 svc0 tc0 wc0 c0 cbD cbS i0 p0].
  cbn in Hcb. subst. open_session.
  change (getCharacteristic w "5fb70001-9c92-4489-ab95-5bc20bb36eab")
    with (getCharacteristic w TELEMETRY_UUID).
  change (getCharacteristic w "5fb70004-9c92-4489-ab95-5bc20bb36eab")
    with (getCharacteristic w WRITE_AUTH_UUID).
  cbn; rewrite Hdev; cbn; rewrite Hgatt; cbn; rewrite H0; cbn;
    rewrite Hgatt; cbn; rewrite H1; cbn; rewrite Hsvc; cbn; rewrite Htc; cbn;
    rewrite Hwc; cbn; rewrite Hrv; cbn; rewrite Hstart; cbn.
  repeat split.
Qed.

Lemma connect_succeeds_on_retry_witness :
  let w := {| requestDevice := Resolved iQE050;
              gattConnect := fun n =>
                match n with
                | O => Rejected (mkError "Connection attempt failed")
                | _ => Resolved GattServer
                end;
              getPrimaryService := Resolved (GattService SERVICE_UUID);
              getCharacteristic := fun u => Resolved (GattCharacteristic u);
              readValue := Resolved tt;
              startNotifications := Resolved tt;
              writeValueWithResponse := fun _ => Resolved tt |} in
  resultOf (connect w initSession) = Resolved true
  /\ connected (sessionOf (connect w initSession)) = true.
Proof.
  intros w.
  destruct (connect_succeeds_on_retry w initSession iQE050
              (mkError "Connection attempt failed") GattServer
              (GattService SERVICE_UUID) (GattCharacteristic TELEMETRY_UUID)
              (GattCharacteristic WRITE_AUTH_UUID))
    as (H1 & _ & _ & H4 & _);
    [reflexivity | reflexivity | reflexivity | reflexivity | reflexivity
    | reflexivity | reflexivity | reflexivity | reflexivity | reflexivity |].
  split; [exact H1 | exact H4].
Defined.


(** X24. A disconnect event delivered twice (the listener is added anew by
    every [connect]) arms at most one reconnect timer: whatever the session,
    the second delivery arms nothing, attempts nothing and leaves the
    session as the first delivery left it. *)
Theorem duplicate_disconnect_event_harmless (s : Session) :
  let r1 := onDisconnected s in
  let r2 := onDisconnected (sessionOf r1) in
  (length (timers (effectsOf r1)) <= 1)%nat
  /\ timers (effectsOf r2) = []
  /\ gattConnects (effectsOf r1) = 0%nat
  /\ gattConnects (effectsOf r2) = 0%nat
  /\ sessionOf r2 = sessionOf r1.
Proof.
  destruct s as [dev0 srv0 svc0 tc0 wc0 c0 cbD cbS i0 p0]. run_all.
  destruct cbS, c0, dev0, i0; cbn; repeat split; lia.
Qed.

(** ** Temperature history *)

Lemma length_shift {A} (l : list A) : length (shift l) = (length l - 1)%nat.
Proof. destruct l; cbn; lia. Qed.

Lemma orNull_not_sentinel (t : Z) : orNull t <> Some 999.
Proof.
  unfold orNull. destruct (Z.eqb_spec t 999); [discriminate|].
  intros H. injection H as H. contradiction.
Qed.

Lemma In_shift {A} (x : A) (l : list A) : In x (shift l) -> In x l.
Proof. destruct l; cbn; auto. Qed.

Lemma addToHistory_step (h : TempHistory.t) (data : Telemetry) (now : Z) :
  aligned h -> (length (TempHistory.timestamps h) <= maxDataPoints)%nat ->
  sentinelFree h ->
  let h' := addToHistory h data now in
  aligned h'
  /\ (length (TempHistory.timestamps h') <= maxDataPoints)%nat
  /\ sentinelFree h'
  /\ length (TempHistory.timestamps h')
     = Nat.min maxDataPoints (S (length (TempHistory.timestamps h)))
  /\ last (TempHistory.timestamps h') 0 = now
  /\ last (TempHistory.pit h') None = orNull (pitTemp data).
Proof.
  intros (A1 & A2 & A3) Hlen (S1 & S2 & S3) h'. subst h'.
  unfold addToHistory. cbv zeta.
  assert (Hin : forall (l : list (option Z)) t,
             ~ In (Some 999) l -> ~ In (Some 999) (l ++ [orNull t])).
  { intros l t Hl Hx. apply in_app_or in Hx. destruct Hx as [Hx | [Hx | []]];
      [contradiction|]. exact (orNull_not_sentinel t Hx). }
  assert (Hlast : forall {A} (l : list A) (x d : A),
             (1 <= length l)%nat -> last (shift (l ++ [x])) d = x).
  { intros A l x d Hl. destruct l as [|y l]; [cbn in Hl; lia|].
    cbn. apply last_last. }
  destruct (Nat.ltb_spec maxDataPoints
              (length (TempHistory.timestamps h ++ [now]))) as [Hfull | Hroom];
    rewrite length_app in *; cbn [length] in *; cbn [TempHistory.pit
      TempHistory.food1 TempHistory.food2 TempHistory.timestamps].
  - unfold aligned, sentinelFree.
    cbn [TempHistory.pit TempHistory.food1 TempHistory.food2
         TempHistory.timestamps].
    rewrite !length_shift, !length_app. cbn [length].
    assert (length (TempHistory.timestamps h) = maxDataPoints) by lia.
    unfold maxDataPoints in *.
    repeat split; try lia;
      try (intros Hx; apply In_shift in Hx; revert Hx; apply Hin; assumption);
      apply Hlast; lia.
  - unfold aligned, sentinelFree.
    cbn [TempHistory.pit TempHistory.food1 TempHistory.food2
         TempHistory.timestamps].
    rewrite !length_app. cbn [length]. unfold maxDataPoints in *.
    repeat split; try lia; try (apply Hin; assumption); apply last_last.
Qed.

Lemma lastN_lastN_app {A} (n : nat) (a b : list A) :
  lastN n (lastN n a ++ b) = lastN n (a ++ b).
Proof.
  unfold lastN. rewrite !length_app, length_skipn.
  destruct (Nat.le_gt_cases (length a) n) as [Hle | Hgt].
  - replace (length a - n)%nat with 0%nat by lia. cbn [skipn].
    rewrite Nat.sub_0_r. reflexivity.
  - replace (length a - (length a - n) + length b - n)%nat
      with (length b) by lia.
    replace (length a + length b - n)%nat
      with (length b + (length a - n))%nat by lia.
    rewrite <- skipn_skipn. f_equal.
    rewrite skipn_app.
    replace (length a - n - length a)%nat with 0%nat by lia.
    reflexivity.
Qed.

Lemma lastN_push {A} (l : list A) (x : A) :
  (length l <= maxDataPoints)%nat ->
  (if (maxDataPoints <? length l + 1)%nat then shift (l ++ [x]) else l ++ [x])
  = lastN maxDataPoints (l ++ [x]).
Proof.
  intros H. unfold lastN. rewrite length_app. cbn [length].
  destruct (Nat.ltb_spec maxDataPoints (length l + 1)).
  - replace (length l + 1 - maxDataPoints)%nat with 1%nat by lia.
    destruct l; [cbn in *; unfold maxDataPoints in *; lia|reflexivity].
  - replace (length l + 1 - maxDataPoints)%nat with 0%nat by lia.
    reflexivity.
Qed.

Lemma addToHistory_lastN (h : TempHistory.t) (data : Telemetry) (now : Z) :
  aligned h -> (length (TempHistory.timestamps h) <= maxDataPoints)%nat ->
  addToHistory h data now
  = TempHistory.mk
      (lastN maxDataPoints (TempHistory.pit h ++ [orNull (pitTemp data)]))
      (lastN maxDataPoints (TempHistory.food1 h ++ [orNull (food1Temp data)]))
      (lastN maxDataPoints (TempHistory.food2 h ++ [orNull (food2Temp data)]))
      (lastN maxDataPoints (TempHistory.timestamps h ++ [now])).
Proof.
  intros (A1 & A2 & A3) Hl. unfold addToHistory. cbv zeta.
  rewrite length_app. cbn [length].
  rewrite <- !lastN_push by lia.
  rewrite A1, A2, A3.
  destruct (maxDataPoints <? length (TempHistory.timestamps h) + 1)%nat;
    reflexivity.
Qed.

(** X12. The temperature history is a sliding window over the session: after
    any number of readings each of its four series holds the values of the
    latest 720 readings, in order, a disconnected probe (999) recorded as
    [null].  So the series stay aligned, never hold more than 720 points and
    never hold the sentinel. *)
Theorem tempHistory_sliding_window (inputs : list (Telemetry * Z)) :
  let h := runHistory newTempHistory inputs in
  h = TempHistory.mk
        (lastN maxDataPoints (map (fun i => orNull (pitTemp (fst i))) inputs))
        (lastN maxDataPoints (map (fun i => orNull (food1Temp (fst i))) inputs))
        (lastN maxDataPoints (map (fun i => orNull (food2Temp (fst i))) inputs))
        (lastN maxDataPoints (map snd inputs))
  /\ aligned h
  /\ length (TempHistory.timestamps h) = Nat.min maxDataPoints (length inputs)
  /\ sentinelFree h.
Proof.
  assert (G : forall inputs h,
             aligned h ->
             (length (TempHistory.timestamps h) <= maxDataPoints)%nat ->
             sentinelFree h ->
             let h' := runHistory h inputs in
             h' = TempHistory.mk
                    (lastN maxDataPoints
                       (TempHistory.pit h
                        ++ map (fun i => orNull (pitTemp (fst i))) inputs))
                    (lastN maxDataPoints
                       (TempHistory.food1 h
                        ++ map (fun i => orNull (food1Temp (fst i))) inputs))
                    (lastN maxDataPoints
                       (TempHistory.food2 h
                        ++ map (fun i => orNull (food2Temp (fst i))) inputs))
                    (lastN maxDataPoints
                       (TempHistory.timestamps h ++ map snd inputs))
             /\ aligned h'
             /\ length (TempHistory.timestamps h')
                = Nat.min maxDataPoints
                    (length (TempHistory.timestamps h) + length inputs)
             /\ sentinelFree h').
  { clear inputs. induction inputs as [|[data now] rest IH]; intros h A L S.
    - cbn [runHistory map length]. rewrite !app_nil_r.
      destruct A as (A1 & A2 & A3).
      unfold lastN. rewrite A1, A2, A3.
      replace (length (TempHistory.timestamps h) - maxDataPoints)%nat
        with 0%nat by lia.
      cbn [skipn]. split; [destruct h; reflexivity|].
      repeat split; try assumption; try apply S. lia.
    - cbn [runHistory length map fst snd].
      destruct (addToHistory_step h data now A L S) as (A' & L' & S' & E & _).
      destruct (IH _ A' L' S') as (E2 & A2 & L2 & S2).
      split; [|split; [exact A2|split; [|exact S2]]].
      + rewrite E2, (addToHistory_lastN h data now A L).
        cbn [TempHistory.pit TempHistory.food1 TempHistory.food2
             TempHistory.timestamps].
        rewrite !lastN_lastN_app, <- !app_assoc. reflexivity.
      + rewrite L2, E. lia. }
  intros h. subst h.
  destruct (G inputs newTempHistory) as (E & A & L & S).
  - repeat split.
  - cbn [newTempHistory TempHistory.timestamps length].
    unfold maxDataPoints. lia.
  - unfold sentinelFree. cbn. tauto.
  - split; [exact E|]. split; [exact A|]. split; [exact L | exact S].
Qed.

(** ** Alarms *)

Lemma alarmTitles_cases (data : Telemetry) :
  alarmTitles data
  = (if (0 <? food1Alarm data) && negb (food1Temp data =? 999)
        && (food1Alarm data <=? food1Temp data)
     then ["Food 1 Ready!"%string] else [])
    ++ (if (0 <? food2Alarm data) && negb (food2Temp data =? 999)
           && (food2Alarm data <=? food2Temp data)
        then ["Food 2 Ready!"%string] else [])
    ++ (if (0 <? pitAlarm data) && negb (pitTemp data =? 999)
           && (0 <? pitSet data)
           && (pitTemp data <? pitSet data - 145 - pitAlarm data)
        then ["Pit Temperature Low"%string] else []).
Proof.
  unfold alarmTitles, checkAlarms. cbv zeta. rewrite !map_app.
  destruct ((0 <? food1Alarm data) && _ && _);
    destruct ((0 <? food2Alarm data) && _ && _);
    destruct ((0 <? pitAlarm data) && _ && _);
    cbn; try reflexivity;
    destruct (pitTemp data <? _); reflexivity.
Qed.


Lemma titles_in (c1 c2 c3 : bool) :
  let l := (if c1 then ["Food 1 Ready!"%string] else [])
           ++ (if c2 then ["Food 2 Ready!"%string] else [])
           ++ (if c3 then ["Pit Temperature Low"%string] else []) in
  (In "Food 1 Ready!"%string l <-> c1 = true)
  /\ (In "Food 2 Ready!"%string l <-> c2 = true)
  /\ (In "Pit Temperature Low"%string l <-> c3 = true).
Proof.
  destruct c1, c2, c3; cbn; repeat split; intros K; auto;
    try discriminate K;
    repeat (destruct K as [K | K]; try discriminate K; try contradiction).
Qed.

Lemma food_condition (alarm temp : Z) :
  (0 <? alarm) && negb (temp =? 999) && (alarm <=? temp) = true
  <-> 0 < alarm /\ temp <> 999 /\ alarm <= temp.
Proof.
  rewrite !andb_true_iff, negb_true_iff, Z.ltb_lt, Z.eqb_neq, Z.leb_le.
  tauto.
Qed.

(** X13. [checkAlarms] raises 'Food 1 Ready!' exactly when the food 1
    alarm is set, the probe is connected and the temperature has reached the
    alarm, and likewise for food 2; a probe reading 999 never raises
    anything; and, unlike the low-fuel alert, a food alarm is raised again
    by every reading for which this holds, whatever the state of the
    application. *)
Theorem food_alarm_conditions (data : Telemetry) :
  (In "Food 1 Ready!"%string (alarmTitles data)
   <-> 0 < food1Alarm data /\ food1Temp data <> 999
       /\ food1Alarm data <= food1Temp data)
  /\ (In "Food 2 Ready!"%string (alarmTitles data)
      <-> 0 < food2Alarm data /\ food2Temp data <> 999
          /\ food2Alarm data <= food2Temp data)
  /\ (pitTemp data = 999 -> food1Temp data = 999 -> food2Temp data = 999 ->
      checkAlarms data = [])
  /\ (forall app tHistory tFuel,
        incl (checkAlarms data)
             (snd (handleTelemetryData app data tHistory tFuel))).
Proof.
  rewrite alarmTitles_cases.
  match goal with
  | |- context [(if ?c1 then _ else _) ++ (if ?c2 then _ else _)
                ++ (if ?c3 then _ else _)] =>
      destruct (titles_in c1 c2 c3) as (T1 & T2 & _)
  end.
  split; [|split; [|split]].
  - rewrite T1. apply food_condition.
  - rewrite T2. apply food_condition.
  - intros Hp H1 H2. unfold checkAlarms. rewrite Hp, H1, H2. cbn.
    repeat (rewrite andb_false_r; cbn). reflexivity.
  - intros app tHistory tFuel. unfold handleTelemetryData. cbn [snd].
    apply incl_appr, incl_refl.
Qed.

Lemma food_alarm_conditions_witness :
  In "Food 1 Ready!"%string (alarmTitles (reading 999 0 80))
  /\ checkAlarms
       (match parseTelemetry
                (bytes [0; 0; 0; 3; 231; 3; 231; 3; 231; 0; 80; 200; 210;
                        0; 0; 0; 0; 0; 0; 0]) with
        | Some d => d
        | None => reading 0 0 0
        end) = [].
Proof.
  split.
  - apply (proj1 (food_alarm_conditions (reading 999 0 80))).
    vm_compute. repeat split; try reflexivity; intro; discriminate.
  - apply (proj1 (proj2 (proj2 (food_alarm_conditions _)))); reflexivity.
Defined.

(** X14. For a reading decoded from a frame, 'Pit Temperature Low' is
    raised only below [pitSet - 145 - pitAlarm], which is at most 109: with
    the pit at 109 °F or above the pit alarm is never raised, whatever the
    target and the deviation set on the device. *)
Theorem pit_alarm_silent_from_109 (dv : DataView) (data : Telemetry) :
  parseTelemetry dv = Some data ->
  (In "Pit Temperature Low"%string (alarmTitles data)
   <-> 0 < pitAlarm data /\ pitTemp data <> 999 /\ 0 < pitSet data
       /\ pitTemp data < pitSet data - 145 - pitAlarm data)
  /\ (109 <= pitTemp data ->
      ~ In "Pit Temperature Low"%string (alarmTitles data)).
Proof.
  intros Hd.
  assert (Hiff : In "Pit Temperature Low"%string (alarmTitles data)
                 <-> 0 < pitAlarm data /\ pitTemp data <> 999
                     /\ 0 < pitSet data
                     /\ pitTemp data < pitSet data - 145 - pitAlarm data).
  { rewrite alarmTitles_cases.
    match goal with
    | |- context [(if ?c1 then _ else _) ++ (if ?c2 then _ else _)
                  ++ (if ?c3 then _ else _)] =>
        destruct (titles_in c1 c2 c3) as (_ & _ & T3)
    end.
    rewrite T3.
    rewrite !andb_true_iff, negb_true_iff, !Z.ltb_lt, Z.eqb_neq. tauto. }
  split; [exact Hiff|].
  intros Hp Hin. apply Hiff in Hin.
  destruct (parseTelemetry_layout dv data Hd)
    as (_ & _ & _ & _ & _ & _ & _ & L10 & _).
  apply getUint8_range in L10. lia.
Qed.

Lemma pit_alarm_silent_from_109_witness :
  ~ In "Pit Temperature Low"%string
      (alarmTitles
         (match parseTelemetry
                  (bytes [50; 0; 0; 0; 150; 0; 201; 0; 202; 0; 80; 0; 0;
                          0; 0; 0; 0; 0; 0; 0]) with
          | Some d => d
          | None => reading 0 0 0
          end)).
Proof.
  apply (proj2 (pit_alarm_silent_from_109
                  (bytes [50; 0; 0; 0; 150; 0; 201; 0; 202; 0; 80; 0; 0;
                          0; 0; 0; 0; 0; 0; 0]) _ eq_refl)).
  vm_compute. discriminate.
Defined.

(** ** Command verification and frame delivery *)

Lemma opcode_cases (f : Setting) :
  opcode f = 1 \/ opcode f = 2 \/ opcode f = 3 \/ opcode f = 4
  \/ opcode f = 6 \/ opcode f = 8 \/ opcode f = 9 \/ opcode f = 10
  \/ opcode f = 11 \/ opcode f = 12 \/ opcode f = 13 \/ opcode f = 14
  \/ opcode f = 15.
Proof. destruct f; cbn; tauto. Qed.

(** X15. [verifyCommand] compares the argument with the byte of the latest
    reading that reports the setting: for each of the ten settings with a
    byte of their own in the frame it answers [true] when the frame carries
    the argument at that offset and [false] otherwise.  It answers [null]
    for sound level, display brightness and temperature units, for an
    opcode outside 1..15, and as long as no reading has arrived. *)
Theorem verifyCommand_reads_telemetry (f : Setting) (off : nat)
    (dv : DataView) (data : Telemetry) (b arg : Z) :
  telemetryOffset f = Some off ->
  parseTelemetry dv = Some data ->
  getUint8 dv off = Some b ->
  verifyCommand (Some data) (opcode f) arg = Some (b =? arg)
  /\ (forall cur x, verifyCommand cur (opcode SoundLevel) x = None
                    /\ verifyCommand cur (opcode DisplayBrightness) x = None
                    /\ verifyCommand cur 7 x = None)
  /\ (forall cur cmd x, cmd < 1 \/ 15 < cmd -> verifyCommand cur cmd x = None)
  /\ (forall cmd x, verifyCommand None cmd x = None).
Proof.
  intros Hoff Hd Hb.
  pose proof (parseTelemetry_layout dv data Hd) as L.
  destruct L as (L0 & L1 & L2 & _ & _ & _ & _ & L10 & L11 & L12 & _ & _ & _
                 & L16 & L17 & L18 & L19 & _).
  split.
  { destruct f; cbn in Hoff; try discriminate Hoff; injection Hoff as <-;
      cbn; rewrite Hb in *;
      match goal with
      | K : Some b = Some _ |- _ => injection K as ->
      end; reflexivity. }
  split.
  { intros [d|] x; cbn; repeat split. }
  split.
  { intros [d|] cmd x Hc; [|reflexivity]. unfold verifyCommand.
    repeat match goal with
           | |- context [?a =? ?n] =>
               destruct (Z.eqb_spec a n); [lia|]
           end.
    reflexivity. }
  reflexivity.
Qed.

Lemma verifyCommand_reads_telemetry_witness :
  verifyCommand (Some (reading 200 2 80)) (opcode PitTemp) 80 = Some true.
Proof.
  apply (proj1 (verifyCommand_reads_telemetry PitTemp 10 (frame 200 2 80)
                  (reading 200 2 80) 80 80 eq_refl eq_refl eq_refl)).
Defined.

Lemma handleTelemetry_readings (dv : DataView) (s : Session) :
  readings (effectsOf (handleTelemetry dv s))
  = if (byteLength dv =? 20) && onDataCallback s
    then match parseTelemetry dv with Some data => [data] | None => [] end
    else [].
Proof.
  unfold handleTelemetry, bind, get, emit, throw, ret, when.
  destruct (byteLength dv =? 20); cbn; [|reflexivity].
  destruct (parseTelemetry dv); cbn; destruct (onDataCallback s); reflexivity.
Qed.

Lemma receiveFrame_cases (s : Session) (app : App) (dv : DataView)
    (tHistory tFuel : Z) :
  (byteLength dv <> 20 \/ onDataCallback s = false ->
   receiveFrame s app dv tHistory tFuel = (app, []))
  /\ (byteLength dv = 20 -> onDataCallback s = true ->
      exists data,
        parseTelemetry dv = Some data
        /\ receiveFrame s app dv tHistory tFuel
           = handleTelemetryData app data tHistory tFuel).
Proof.
  unfold receiveFrame. rewrite handleTelemetry_readings.
  split.
  - intros [Hl | Hcb].
    + apply Z.eqb_neq in Hl. rewrite Hl. reflexivity.
    + rewrite Hcb, andb_false_r. reflexivity.
  - intros Hl Hcb.
    assert (Hn : length dv = 20%nat) by (unfold byteLength in Hl; lia).
    destruct (parseTelemetry_total dv Hn) as [data Hd].
    exists data. split; [exact Hd|].
    rewrite Hl, Hcb, Hd. reflexivity.
Qed.

(** X16. Frames of the wrong length never reach the application: a stream
    of frames leaves the application in the state, and raises the
    notifications, of the same stream with those frames removed; and with no
    data callback installed nothing reaches it at all. *)
Theorem malformed_frames_ignored (s : Session) (app : App)
    (frames : list (DataView * Z * Z)) :
  receiveFrames s app frames
  = receiveFrames s app
      (filter (fun fr => byteLength (fst (fst fr)) =? 20) frames)
  /\ (onDataCallback s = false -> receiveFrames s app frames = (app, [])).
Proof.
  split.
  - revert app. induction frames as [|[[dv tH] tF] rest IH]; intros app;
      [reflexivity|].
    cbn [filter fst]. destruct (Z.eqb_spec (byteLength dv) 20) as [Hl | Hl].
    + cbn [receiveFrames]. rewrite IH. reflexivity.
    + cbn [receiveFrames].
      rewrite (proj1 (receiveFrame_cases s app dv tH tF) (or_introl Hl)).
      cbn [fst snd List.app]. rewrite IH.
      destruct (receiveFrames s app (filter _ rest)); reflexivity.
  - intros Hcb. revert app.
    induction frames as [|[[dv tH] tF] rest IH]; intros app; [reflexivity|].
    cbn [receiveFrames].
    rewrite (proj1 (receiveFrame_cases s app dv tH tF) (or_intror Hcb)).
    cbn [fst snd List.app]. rewrite IH. reflexivity.
Qed.

Lemma malformed_frames_ignored_witness :
  receiveFrames newSession newApp [(frame 200 2 80, t0, t0)] = (newApp, []).
Proof.
  apply (proj2 (malformed_frames_ignored newSession newApp
                  [(frame 200 2 80, t0, t0)])).
  reflexivity.
Defined.

(** X17. A command the device has taken over is reported as verified: when
    one of the ten byte-reported settings is sent and the next frame carries
    the argument written at the setting's offset, [verifyCommand] on the
    application's latest reading answers [true] for that opcode and
    argument. *)
Theorem command_echo_verified (w : World) (s : Session) (app : App)
    (f : Setting) (v : Z) (off : nat) (dv : DataView) (tHistory tFuel : Z) :
  telemetryOffset f = Some off ->
  connected s = true -> writeChar s <> None -> onDataCallback s = true ->
  byteLength dv = 20 ->
  let arg := specTransform f (specClamp f v) in
  getUint8 dv off = Some arg ->
  framesWritten (effectsOf (encode w f v s)) = [[opcode f; arg]]
  /\ verifyCommand (currentData (fst (receiveFrame s app dv tHistory tFuel)))
       (opcode f) arg = Some true.
Proof.
  intros Hoff Hc Hw Hcb Hl arg Hb.
  split.
  - destruct (encode_as_send w f v s) as (_ & _ & ->).
    rewrite sendCommand_frames by assumption. fold arg.
    pose proof (encode_value f v) as Harg. fold arg in Harg.
    cbn [Uint8Array map]. rewrite (Z.mod_small arg) by lia.
    destruct f; reflexivity.
  - destruct (proj2 (receiveFrame_cases s app dv tHistory tFuel) Hl Hcb)
      as (data & Hd & ->).
    unfold handleTelemetryData. cbn [fst currentData].
    pose proof (parseTelemetry_layout dv data Hd) as L.
    destruct L as (L0 & L1 & L2 & _ & _ & _ & _ & L10 & L11 & L12 & _ & _ & _
                   & L16 & L17 & L18 & L19 & _).
    destruct f; cbn in Hoff; try discriminate Hoff; injection Hoff as <-;
      cbn [verifyCommand opcode Z.eqb Pos.eqb orb]; rewrite Hb in *;
      match goal with
      | K : Some arg = Some _ |- _ => injection K as <-
      end; rewrite Z.eqb_refl; reflexivity.
Qed.

Lemma command_echo_verified_witness :
  verifyCommand
    (currentData (fst (receiveFrame connectedSession newApp
                         (frame 200 2 80) t0 t0)))
    (opcode PitTemp) 80 = Some true.
Proof.
  apply (proj2 (command_echo_verified okWorld connectedSession newApp
                  PitTemp 225 10 (frame 200 2 80) t0 t0
                  eq_refl eq_refl
                  (fun H => match H in _ = o return
                              match o with Some _ => True | None => False end
                            with eq_refl => I end)
                  eq_refl eq_refl eq_refl)).
Defined.

(** ** Write errors *)

Lemma includes_nonempty (msg sub : string) :
  sub <> ""%string -> includes msg sub = true -> (msg =? "")%string = false.
Proof.
  intros Hsub H. destruct msg; [|reflexivity].
  exfalso. destruct sub as [|c sub]; [congruence|]. discriminate H.
Qed.

(** X18. An error whose message mentions GATT is told two ways: a write
    rejected with it makes [sendCommand] log the pairing hint before
    rethrowing it, while [handleWriteError] on the same error shows the
    'device disconnected' toast, not the pairing one, even if the message
    also mentions pairing. *)
Theorem gatt_error_told_two_ways (w : World) (s : Session)
    (command value : Z) (e : Error) (actionName : string) :
  connected s = true -> writeChar s <> None ->
  writeValueWithResponse w [command mod 256; value mod 256] = Rejected e ->
  includes (message e) "GATT" = true ->
  resultOf (sendCommand w command value s) = Rejected e
  /\ In (ConsoleLog "Write failed - device may need pairing. If you see a Windows pairing dialog, accept it and try again." [])
        (effectsOf (sendCommand w command value s))
  /\ handleWriteError (Some e) actionName
     = mkToast (actionName ++ " failed - device disconnected. Will auto-reconnect...")
         "error" 5000.
Proof.
  intros Hc Hw Hrej Hg. split; [|split].
  - unfold sendCommand, bind, get, try_catch, emit, await, modify, throw,
      ret, when.
    rewrite Hc. destruct (writeChar s); [|congruence]. cbn.
    rewrite Hrej. cbn. rewrite Hg. reflexivity.
  - unfold sendCommand, bind, get, try_catch, emit, await, modify, throw,
      ret, when.
    rewrite Hc. destruct (writeChar s); [|congruence]. cbn.
    rewrite Hrej. cbn. rewrite Hg. cbn. auto.
  - unfold handleWriteError.
    rewrite (includes_nonempty (message e) "GATT") by (discriminate || exact Hg).
    rewrite Hg. reflexivity.
Qed.

Lemma gatt_error_told_two_ways_witness :
  let w := {| requestDevice := Resolved iQE050;
              gattConnect := fun _ => Resolved GattServer;
              getPrimaryService := Resolved (GattService SERVICE_UUID);
              getCharacteristic := fun u => Resolved (GattCharacteristic u);
              readValue := Resolved tt;
              startNotifications := Resolved tt;
              writeValueWithResponse := fun _ =>
                Rejected (mkError "GATT Error: Not paired.") |} in
  resultOf (sendCommand w 1 80 connectedSession)
  = Rejected (mkError "GATT Error: Not paired.")
  /\ toastText (handleWriteError (Some (mkError "GATT Error: Not paired."))
                  "set pit temp")
     = "set pit temp failed - device disconnected. Will auto-reconnect..."%string.
Proof.
  intros w.
  destruct (gatt_error_told_two_ways w connectedSession 1 80
              (mkError "GATT Error: Not paired.") "set pit temp")
    as (H1 & _ & H3);
    [reflexivity | vm_compute; discriminate | reflexivity | reflexivity |].
  split; [exact H1 | rewrite H3; reflexivity].
Defined.

(** ** Pit-set encoders on every input *)

(** X19. Reading back what a pit-set encoder wrote gives the clamped value
    for every input, not only for inputs in range: for [setPitTemp] any
    input comes back as its clamp into 150..400, and for the three optional
    pit-set encoders 0 comes back as 0 (off) and any other input as its
    clamp into 150..400. *)
Theorem pitSet_roundtrip_any_input (w : World) (s : Session) (f : Setting)
    (v : Z) :
  In f [PitTemp; DelayPitSet; Food1PitSet; Food2PitSet] ->
  connected s = true -> writeChar s <> None ->
  exists arg,
    framesWritten (effectsOf (encode w f v s)) = [[opcode f; arg]]
    /\ pitSetTargetF arg
       = (if (v =? 0) && negb (opcode f =? 1) then 0
          else Z.max 150 (Z.min 400 v)).
Proof.
  intros Hf Hc Hw.
  exists (specTransform f (specClamp f v)). split.
  - destruct (encode_as_send w f v s) as (_ & _ & ->).
    rewrite sendCommand_frames by assumption.
    pose proof (encode_value f v) as Harg.
    cbn [Uint8Array map].
    rewrite (Z.mod_small (specTransform f (specClamp f v))) by lia.
    destruct f; reflexivity.
  - cbn in Hf. destruct Hf as [<-|[<-|[<-|[<-|[]]]]];
      unfold pitSetTargetF; unfold_clamps; cbn [Z.eqb Pos.eqb negb andb];
      rewrite ?andb_true_r, ?andb_false_r; zbool.
Qed.

Lemma pitSet_roundtrip_any_input_witness :
  exists arg,
    framesWritten (effectsOf (encode okWorld DelayPitSet 0 connectedSession))
    = [[11; arg]]
    /\ pitSetTargetF arg = 0.
Proof.
  destruct (pitSet_roundtrip_any_input okWorld connectedSession DelayPitSet 0)
    as (arg & H1 & H2).
  - cbn. tauto.
  - reflexivity.
  - vm_compute. discriminate.
  - exists arg. split; [exact H1 | exact H2].
Defined.


(** ** Fuel estimator: warm-up, duty range, auto mode *)

Lemma update_duty_length (fm : FuelMonitor) (data : Telemetry) (now : Z) :
  (length (fanDutyHistory (fst (updateFuelMonitor fm data now)))
   <= S (length (fanDutyHistory fm)))%nat.
Proof.
  destruct (updateFuelMonitor_parts fm data now) as (H1 & _).
  rewrite H1. etransitivity; [apply filter_length_le|].
  rewrite length_app. cbn. lia.
Qed.

Lemma level_100_quiet (fm : FuelMonitor) (data : Telemetry) (now : Z) :
  fuelLevel (snd (updateFuelMonitor fm data now)) = 100 ->
  notifications (snd (updateFuelMonitor fm data now)) = []
  /\ lowFuelAlerted (fst (updateFuelMonitor fm data now)) = false.
Proof.
  intros H. destruct (alert_step fm data now) as [Hn Hf].
  rewrite H in Hn, Hf. cbn in Hn, Hf. auto.
Qed.

(** X20. Warm-up: as long as the duty history holds fewer than 11 samples
    after an update, the level shown is 100, nothing is raised and the
    alerted flag is clear.  From a fresh estimator this covers the first ten
    updates, whatever the readings and the clock. *)
Theorem fuel_warmup (inputs : list (Telemetry * Z)) (fm : FuelMonitor) :
  (length (fanDutyHistory fm) + length inputs <= 10)%nat ->
  Forall (fun v => fuelLevel v = 100 /\ notifications v = [])
         (snd (runFuel fm inputs))
  /\ alerts (snd (runFuel fm inputs)) = 0%nat
  /\ (inputs <> [] -> lowFuelAlerted (fst (runFuel fm inputs)) = false).
Proof.
  revert fm. induction inputs as [|[data now] rest IH]; intros fm Hlen.
  - cbn. repeat split; [constructor|congruence].
  - rewrite runFuel_cons. cbn [fst snd]. cbn [length] in Hlen.
    pose proof (update_duty_length fm data now) as Hd.
    assert (Hl : fuelLevel (snd (updateFuelMonitor fm data now)) = 100).
    { destruct (updateFuelMonitor_parts fm data now)
        as (H1 & _ & _ & _ & _ & _ & H7 & _).
      rewrite H7. unfold specLevel. rewrite <- H1.
      destruct (Nat.ltb_spec
                  (length (fanDutyHistory (fst (updateFuelMonitor fm data now))))
                  11); [reflexivity|lia]. }
    destruct (level_100_quiet fm data now Hl) as [Hn Hf].
    destruct (IH (fst (updateFuelMonitor fm data now))) as (F & A & K); [lia|].
    split; [constructor; auto|].
    split; [rewrite alerts_cons, Hn, A; reflexivity|].
    intros _. destruct rest as [|x rest]; [cbn; exact Hf|].
    apply K. discriminate.
Qed.

Lemma fuel_warmup_witness :
  Forall (fun v => fuelLevel v = 100 /\ notifications v = [])
         (snd (runFuel newFuelMonitor (steady 10 7 400 t0))).
Proof.
  apply (fuel_warmup (steady 10 7 400 t0) newFuelMonitor).
  cbn. lia.
Defined.

Lemma autoDuty_percentage (d : Z) :
  -65679 <= d <= 110 ->
  PrimFloat.leb 0 (autoDuty d) = true /\ PrimFloat.leb (autoDuty d) 100 = true.
Proof.
  intros H.
  assert (K : forallb (fun d => PrimFloat.leb 0 (autoDuty d)
                                && PrimFloat.leb (autoDuty d) 100)
                (zrange (-65679) (Z.to_nat 65790)) = true)
    by (vm_compute; reflexivity).
  apply andb_prop. apply (forallb_zrange _ _ _ K). lia.
Qed.

Lemma autoDuty_zero (d : Z) :
  -65679 <= d <= -15 -> autoDuty d = 0%float.
Proof.
  intros H.
  assert (K : forallb (fun d => PrimFloat.Leibniz.eqb (autoDuty d) 0)
                (zrange (-65679) (Z.to_nat 65665)) = true)
    by (vm_compute; reflexivity).
  apply FloatAxioms.Leibniz.eqb_spec. apply (forallb_zrange _ _ _ K). lia.
Qed.

Lemma manualDuty_percentage (speed : Z) :
  1 <= speed <= 7 ->
  PrimFloat.leb 0 (Z2F speed / 7 * 100) = true
  /\ PrimFloat.leb (Z2F speed / 7 * 100) 100 = true.
Proof.
  intros H.
  assert (K : forallb (fun s => PrimFloat.leb 0 (Z2F s / 7 * 100)
                                && PrimFloat.leb (Z2F s / 7 * 100) 100)
                (zrange 1 7) = true)
    by (vm_compute; reflexivity).
  apply andb_prop. apply (forallb_zrange _ _ _ K). lia.
Qed.

Lemma decoded_fuel_inputs (dv : DataView) (data : Telemetry) :
  parseTelemetry dv = Some data ->
  0 <= fanSpeed data <= 7 /\ 0 <= pitTemp data <= 65535
  /\ 0 <= pitSet data <= 255.
Proof.
  intros Hd.
  destruct (parseTelemetry_layout dv data Hd)
    as (_ & _ & _ & L3 & _ & _ & L9 & L10 & _ & _ & _ & _ & _ & _ & _ & _ & _
        & _ & _ & F & _).
  apply getUint16_range in L3. apply getUint8_range in L9, L10.
  destruct (byte9_fields (byte9 data)) as (_ & _ & B).
  rewrite F, B. pose proof (Z.mod_pos_bound (byte9 data) 8). lia.
Qed.

(** X21. For the reading decoded from any frame the fan duty computed by
    the estimator is a percentage: at least 0 and at most 100, in manual
    and in auto mode alike. *)
Theorem fanDuty_is_percentage (dv : DataView) (data : Telemetry) :
  parseTelemetry dv = Some data ->
  PrimFloat.leb 0 (fanDutyPercent data) = true
  /\ PrimFloat.leb (fanDutyPercent data) 100 = true.
Proof.
  intros Hd. destruct (decoded_fuel_inputs dv data Hd) as (Hf & Hp & Hs).
  unfold fanDutyPercent.
  destruct (Z.eqb_spec (fanSpeed data) 0) as [H0 | H0].
  - destruct (negb (pitTemp data =? 999)); cbn [andb];
      [|split; reflexivity].
    destruct (Z.ltb_spec 0 (pitSet data)); [|split; reflexivity].
    cbv zeta.
    change (Math_maxF 0 (Math_minF 100
              (Z2F (pitSet data - 145 - pitTemp data) / 50 * 100 + 30)))
      with (autoDuty (pitSet data - 145 - pitTemp data)).
    apply autoDuty_percentage. lia.
  - apply manualDuty_percentage. lia.
Qed.

Lemma fanDuty_is_percentage_witness :
  PrimFloat.leb (fanDutyPercent (reading 200 5 80)) 100 = true.
Proof.
  apply (proj2 (fanDuty_is_percentage (frame 200 5 80) (reading 200 5 80)
                  eq_refl)).
Defined.

(** In auto mode the duty is 0 from 125 °F up, the sentinel included. *)
Lemma auto_duty_zero_from_125 (dv : DataView) (data : Telemetry) :
  parseTelemetry dv = Some data ->
  fanSpeed data = 0 -> 125 <= pitTemp data ->
  fanDutyPercent data = 0%float.
Proof.
  intros Hd H0 Hp. destruct (decoded_fuel_inputs dv data Hd) as (_ & Hr & Hs).
  unfold fanDutyPercent. rewrite H0. cbn [Z.eqb].
  destruct (negb (pitTemp data =? 999)); cbn [andb]; [|reflexivity].
  destruct (Z.ltb_spec 0 (pitSet data)); [|reflexivity].
  cbv zeta.
  change (Math_maxF 0 (Math_minF 100
            (Z2F (pitSet data - 145 - pitTemp data) / 50 * 100 + 30)))
    with (autoDuty (pitSet data - 145 - pitTemp data)).
  apply autoDuty_zero. lia.
Qed.

Lemma zero_over_anything (c y : float) :
  PrimFloat.ltb 0 c = true -> PrimFloat.ltb c (0 / y) = false.
Proof.
  rewrite !ltb_spec, div_spec.
  change (Prim2SF 0) with (S754_zero false).
  destruct (Prim2SF c) as [sc|sc| |sc mc ec]; cbn; try discriminate;
    destruct (Prim2SF y) as [s|s| |s m e]; cbn; try reflexivity;
    destruct sc; try discriminate; try reflexivity;
    destruct s; reflexivity.
Qed.

Lemma sum_zeros (l : list float) :
  Forall (fun x => x = 0%float) l -> fold_left PrimFloat.add l 0%float = 0%float.
Proof.
  induction 1 as [|x l Hx _ IH]; [reflexivity|].
  cbn [fold_left]. rewrite Hx. exact IH.
Qed.

Lemma mean_zeros_small (l : list float) (c : float) :
  PrimFloat.ltb 0 c = true ->
  Forall (fun x => x = 0%float) l -> PrimFloat.ltb c (mean l) = false.
Proof.
  intros Hc Hl. unfold mean. destruct l as [|x l].
  - rewrite ltb_spec in *. change (Prim2SF 0) with (S754_zero false) in *.
    destruct (Prim2SF c) as [sc|sc| |sc mc ec]; cbn in *; try discriminate;
      try reflexivity; destruct sc; try discriminate; reflexivity.
  - rewrite (sum_zeros _ Hl). apply zero_over_anything. exact Hc.
Qed.

(** X22. With the fan in auto mode and the pit at 125 °F or above (the
    sentinel 999 included), every duty sample is 0, so the estimator shows
    level 100 and raises no low-fuel alert, however long the session and
    however fast the pit temperature falls. *)
Theorem auto_mode_always_full (inputs : list (Telemetry * Z)) :
  Forall (fun i => (exists dv, parseTelemetry dv = Some (fst i))
                   /\ fanSpeed (fst i) = 0 /\ 125 <= pitTemp (fst i)) inputs ->
  Forall (fun v => fuelLevel v = 100 /\ notifications v = [])
         (snd (runFuel newFuelMonitor inputs))
  /\ alerts (snd (runFuel newFuelMonitor inputs)) = 0%nat.
Proof.
  assert (G : forall inputs fm,
             Forall (fun e => DutyEntry.duty e = 0%float) (fanDutyHistory fm) ->
             Forall (fun i => (exists dv, parseTelemetry dv = Some (fst i))
                              /\ fanSpeed (fst i) = 0
                              /\ 125 <= pitTemp (fst i)) inputs ->
             Forall (fun v => fuelLevel v = 100 /\ notifications v = [])
                    (snd (runFuel fm inputs))
             /\ alerts (snd (runFuel fm inputs)) = 0%nat).
  { clear inputs. induction inputs as [|[data now] rest IH]; intros fm Hz Hin.
    - cbn. split; [constructor|reflexivity].
    - rewrite runFuel_cons. cbn [fst snd].
      inversion Hin as [|i l ([dv Hd] & H0 & Hp) Hrest]; subst. cbn [fst] in *.
      destruct (updateFuelMonitor_parts fm data now)
        as (H1 & _ & _ & _ & _ & _ & H7 & _).
      assert (Hz' : Forall (fun e => DutyEntry.duty e = 0%float)
                      (fanDutyHistory (fst (updateFuelMonitor fm data now)))).
      { rewrite H1. apply Forall_forall. intros e He.
        apply filter_In in He. destruct He as [He _].
        apply in_app_or in He. destruct He as [He | [<- | []]].
        - rewrite Forall_forall in Hz. apply Hz, He.
        - cbn. apply (auto_duty_zero_from_125 dv); assumption. }
      assert (Hl : fuelLevel (snd (updateFuelMonitor fm data now)) = 100).
      { rewrite H7. rewrite <- H1.
        assert (Hm : forall c, PrimFloat.ltb 0 c = true ->
                  PrimFloat.ltb c
                    (mean (map DutyEntry.duty
                       (fanDutyHistory (fst (updateFuelMonitor fm data now)))))
                  = false).
        { intros c Hc. apply mean_zeros_small; [exact Hc|].
          apply Forall_map. exact Hz'. }
        unfold specLevel.
        rewrite (Hm 60%float eq_refl), (Hm 50%float eq_refl),
          (Hm 40%float eq_refl).
        destruct (_ || _); reflexivity. }
      destruct (level_100_quiet fm data now Hl) as [Hn _].
      destruct (IH _ Hz' Hrest) as [F A].
      split; [constructor; auto|].
      rewrite alerts_cons, Hn, A. reflexivity. }
  intros H. apply G; [constructor | exact H].
Qed.

Lemma auto_mode_always_full_witness :
  alerts (snd (runFuel newFuelMonitor (steady 14 0 300 t0))) = 0%nat.
Proof.
  refine (proj2 (auto_mode_always_full (steady 14 0 300 t0) _)).
  unfold steady. apply Forall_map. apply Forall_forall. intros i Hi.
  apply in_seq in Hi. cbn [fst].
  split.
  - exists (frame (300 - Z.of_nat i) 0 80).
    unfold reading.
    destruct (parseTelemetry_total (frame (300 - Z.of_nat i) 0 80) eq_refl)
      as [d ->]. reflexivity.
  - do 14 (destruct i as [|i]; [vm_compute; split; [reflexivity|discriminate]|]).
    lia.
Defined.

(** ** Fuel estimator: the duty window under a monotone clock *)

Lemma filter_filter_weaken {A} (p q : A -> bool) (l : list A) :
  (forall x, q x = true -> p x = true) ->
  filter q (filter p l) = filter q l.
Proof.
  intros H. induction l as [|x l IH]; [reflexivity|].
  cbn. destruct (p x) eqn:Hp; cbn.
  - rewrite IH. reflexivity.
  - destruct (q x) eqn:Hq; [|exact IH].
    apply H in Hq. congruence.
Qed.

Lemma last_cons_default {A} (a d : A) (l : list A) :
  last (a :: l) d = last l a.
Proof.
  revert a d. induction l as [|b l IH]; intros a d; [reflexivity|].
  change (last (a :: b :: l) d) with (last (b :: l) d).
  rewrite !IH. reflexivity.
Qed.

Lemma run_duty_window (inputs : list (Telemetry * Z)) (fm : FuelMonitor)
    (samples : list DutyEntry.t) (c : Z) :
  fanDutyHistory fm = filter (fun e => c <=? DutyEntry.time e) samples ->
  StronglySorted Z.le (c + 1800000 :: map snd inputs) ->
  fanDutyHistory (fst (runFuel fm inputs))
  = filter (fun e => last (map snd inputs) (c + 1800000) - 1800000
                     <=? DutyEntry.time e)
           (samples ++ map dutySample inputs).
Proof.
  revert fm samples c.
  induction inputs as [|[data now] rest IH]; intros fm samples c Hfm Hs.
  - cbn. rewrite app_nil_r, Hfm. f_equal.
    replace (c + 1800000 - 1800000) with c by lia. reflexivity.
  - rewrite runFuel_cons. cbn [fst map snd].
    rewrite last_cons_default.
    inversion Hs as [|a l Hs' Hall]; subst.
    inversion Hall as [|a l Hc Hall']; subst.
    rewrite (IH (fst (updateFuelMonitor fm data now))
                (samples ++ [dutySample (data, now)]) (now - 1800000)).
    + rewrite <- app_assoc. cbn [app]. f_equal.
      replace (now - 1800000 + 1800000) with now by lia. reflexivity.
    + destruct (updateFuelMonitor_parts fm data now) as (H1 & _).
      rewrite H1, Hfm, !filter_app. f_equal.
      apply filter_filter_weaken. intros x Hx.
      apply Z.leb_le in Hx. apply Z.leb_le. lia.
    + replace (now - 1800000 + 1800000) with now by lia. exact Hs'.
Qed.

Lemma length_filter_map {A B} (f : A -> B) (p : B -> bool) (l : list A) :
  length (filter p (map f l)) = length (filter (fun x => p (f x)) l).
Proof.
  induction l as [|x l IH]; [reflexivity|].
  cbn. destruct (p (f x)); cbn; rewrite IH; reflexivity.
Qed.

(** X23. When the clock never runs backwards, pruning at every update
    loses nothing that a single pruning would keep: after any number of
    updates of a fresh estimator the duty history is exactly the samples of
    the readings that arrived within the last 30 minutes, in order.  So a
    level below 100 is only shown when at least 11 readings arrived within
    the last 30 minutes. *)
Theorem duty_history_is_window (earlier : list (Telemetry * Z))
    (data : Telemetry) (now : Z) :
  StronglySorted Z.le (map snd (earlier ++ [(data, now)])) ->
  let r := updateFuelMonitor (fst (runFuel newFuelMonitor earlier)) data now in
  fanDutyHistory (fst r)
  = filter (fun e => now - 1800000 <=? DutyEntry.time e)
           (map dutySample (earlier ++ [(data, now)]))
  /\ (fuelLevel (snd r) <> 100 ->
      (11 <= length (filter (fun i => (now - 1800000 <=? snd i)%Z)
                            (earlier ++ [(data, now)])))%nat).
Proof.
  intros Hs r.
  assert (Hrun : fst (runFuel newFuelMonitor (earlier ++ [(data, now)]))
                 = fst r).
  { rewrite runFuel_app, runFuel_cons. reflexivity. }
  assert (Hw : fanDutyHistory (fst r)
               = filter (fun e => now - 1800000 <=? DutyEntry.time e)
                        (map dutySample (earlier ++ [(data, now)]))).
  { rewrite <- Hrun.
    set (inputs := earlier ++ [(data, now)]) in *.
    assert (Hlast : forall d, last (map snd inputs) d = now).
    { intros d. subst inputs. rewrite map_app. cbn [map snd].
      apply last_last. }
    destruct inputs as [|[d0 t1] rest] eqn:Ei.
    { destruct earlier; discriminate Ei. }
    rewrite (run_duty_window ((d0, t1) :: rest) newFuelMonitor []
               (t1 - 1800000)).
    - rewrite Hlast. reflexivity.
    - reflexivity.
    - replace (t1 - 1800000 + 1800000) with t1 by lia.
      cbn [map snd] in *. constructor; [exact Hs|].
      constructor; [lia|].
      inversion Hs; assumption. }
  split; [exact Hw|].
  intros Hl.
  rewrite <- (length_filter_map (fun i => snd i)
                (fun t => now - 1800000 <=? t)).
  assert (Hlen : length (filter (fun e => now - 1800000 <=? DutyEntry.time e)
                           (map dutySample (earlier ++ [(data, now)])))
                 = length (filter (fun t => now - 1800000 <=? t)
                             (map (fun i => snd i) (earlier ++ [(data, now)])))).
  { rewrite !length_filter_map. reflexivity. }
  rewrite <- Hlen, <- Hw.
  destruct (updateFuelMonitor_parts (fst (runFuel newFuelMonitor earlier))
              data now) as (H1 & _ & _ & _ & _ & _ & H7 & _).
  fold r in H1, H7. rewrite <- H1 in H7.
  destruct (Nat.ltb_spec (length (fanDutyHistory (fst r))) 11) as [Hlt | Hge];
    [|exact Hge].
  exfalso. apply Hl. rewrite H7. unfold specLevel.
  apply Nat.ltb_lt in Hlt. rewrite Hlt. reflexivity.
Qed.

Lemma duty_history_is_window_witness :
  length (fanDutyHistory
            (fst (updateFuelMonitor
                    (fst (runFuel newFuelMonitor (steady 3 5 250 t0)))
                    (reading 200 5 80) (t0 + 1900000))))
  = 2%nat.
Proof.
  destruct (duty_history_is_window (steady 3 5 250 t0) (reading 200 5 80)
              (t0 + 1900000)) as [H _].
  - vm_compute. repeat constructor; discriminate.
  - rewrite H. vm_compute. reflexivity.
Defined.
